(** * MicroHydra-Apps: IMU live readout and shared status bar

    A shallow embedding of [app-source/IMU_Live/IMU_Live.py] and
    [lib/hydra/statusbar.py].  Python integers are [Z], byte buffers are
    [list Z], strings are [string], a call that may raise returns a sum
    whose left side carries the exception text, and every call on a
    collaborator (bus, display, keyboard, clock) is recorded as an [event]
    of a trace in the order the program issues it. *)

From Stdlib Require Import ZArith List String Ascii Bool Lia.
From Stdlib Require Import Decimal Hexadecimal DecimalString DecimalPos.
From Stdlib Require Import QArith Reals Lra.
Import ListNotations.

Local Open Scope string_scope.
Local Open Scope Z_scope.

(** ** Python string formatting used by the two modules *)

Module Py.

(** Text carried by an exception, as [str(e)] renders it. *)
Definition exn := string.

(** [try: ... except Exception] outcomes: [inl e] is a raised exception. *)
Definition result (A : Type) : Type := (exn + A)%type.

Fixpoint zeros (n : nat) : string :=
  match n with
  | O => ""
  | S k => String "0" (zeros k)
  end.

(** Left padding with zeros up to a minimal width. *)
Definition pad0 (width : nat) (s : string) : string :=
  zeros (width - String.length s) ++ s.

Definition dec_digits (n : N) : string :=
  NilEmpty.string_of_uint (N.to_uint n).

Fixpoint upper_hex (d : Hexadecimal.uint) : string :=
  match d with
  | Hexadecimal.Nil => ""
  | Hexadecimal.D0 r => String "0" (upper_hex r)
  | Hexadecimal.D1 r => String "1" (upper_hex r)
  | Hexadecimal.D2 r => String "2" (upper_hex r)
  | Hexadecimal.D3 r => String "3" (upper_hex r)
  | Hexadecimal.D4 r => String "4" (upper_hex r)
  | Hexadecimal.D5 r => String "5" (upper_hex r)
  | Hexadecimal.D6 r => String "6" (upper_hex r)
  | Hexadecimal.D7 r => String "7" (upper_hex r)
  | Hexadecimal.D8 r => String "8" (upper_hex r)
  | Hexadecimal.D9 r => String "9" (upper_hex r)
  | Hexadecimal.Da r => String "A" (upper_hex r)
  | Hexadecimal.Db r => String "B" (upper_hex r)
  | Hexadecimal.Dc r => String "C" (upper_hex r)
  | Hexadecimal.Dd r => String "D" (upper_hex r)
  | Hexadecimal.De r => String "E" (upper_hex r)
  | Hexadecimal.Df r => String "F" (upper_hex r)
  end.

Definition hex_digits (n : N) : string :=
  upper_hex (N.to_hex_uint n).

(** [f"{z}"] for an integer. *)
Definition str_int (z : Z) : string :=
  if z <? 0 then "-" ++ dec_digits (Z.abs_N z) else dec_digits (Z.abs_N z).

(** [f"{z:02d}"]: the sign counts in the width and the zeros follow it. *)
Definition fmt_02d (z : Z) : string :=
  if z <? 0 then "-" ++ pad0 1 (dec_digits (Z.abs_N z))
  else pad0 2 (dec_digits (Z.abs_N z)).

(** [f"{z:02X}"]. *)
Definition fmt_02X (z : Z) : string :=
  if z <? 0 then "-" ++ pad0 1 (hex_digits (Z.abs_N z))
  else pad0 2 (hex_digits (Z.abs_N z)).

(** [sep.join(l)]. *)
Fixpoint join (sep : string) (l : list string) : string :=
  match l with
  | [] => ""
  | [s] => s
  | s :: rest => s ++ sep ++ join sep rest
  end.

(** [s[:n]]. *)
Definition take (n : nat) (s : string) : string := substring 0 n s.

(** [x in l] for a list of strings. *)
Definition mem_string (x : string) (l : list string) : bool :=
  existsb (String.eqb x) l.

(** [x in l] for a list of integers. *)
Definition mem_int (x : Z) (l : list Z) : bool :=
  existsb (Z.eqb x) l.

End Py.

(** ** Collaborators: display operations and the trace of calls *)

Module Host.

Inductive font := vga1_8x16 | vga1_8x8.

(** The launcher's battery icon and the battery reader, as opaque objects. *)
Inductive icon := battery_icon.
Inductive battery := Battery.

(** What the programs read of a [lib.display.Display]. *)
Record display := { width : Z; height : Z }.

Inductive event :=
| I2C_new (id sda scl freq timeout : Z)
| I2C_scan
| I2C_writeto_mem (addr memaddr : Z) (data : list Z)
| I2C_readfrom_mem_into (addr memaddr : Z) (nbytes : nat)
| Sleep_ms (ms : Z)
| Get_new_keys
| Machine_reset
| Fill (color : Z)
| Fill_rect (x y w h color : Z)
| Text (s : string) (x y color : Z) (f : option font)
| Bitmap (i : icon) (x y : Z) (palette : Z * Z) (index : Z)
| Show.

(** A computation that issues calls and then yields a value. *)
Definition io (A : Type) : Type := (list event * A)%type.

Definition ret {A} (a : A) : io A := ([], a).

Definition bind {A B} (m : io A) (k : A -> io B) : io B :=
  let (t1, a) := m in
  let (t2, b) := k a in
  ((t1 ++ t2)%list, b).

Definition emit (e : event) : io unit := ([e], tt).

Definition trace {A} (m : io A) : list event := fst m.
Definition value {A} (m : io A) : A := snd m.

End Host.

Declare Scope io_scope.
Delimit Scope io_scope with io.
Notation "x <- m ;; k" := (Host.bind m (fun x => k))
  (at level 61, m at next level, right associativity) : io_scope.
Notation "m ;;; k" := (Host.bind m (fun _ => k))
  (at level 61, right associativity) : io_scope.

(** ** [lib/hydra/statusbar.py]: the status bar and its redraw cache *)

Module StatusBar.
Import Py Host.

Record t := {
  height : Z;
  use_12h : bool;
  _last_time_str : string;
  _last_batt_level : Z;
  _battery : option battery;
  _battery_icon : option icon
}.

(** What the two guarded imports of [__init__] find: [lib.battlevel] with
    its [Battery()] and [launcher.icons.battery]; [None] when the import
    or the constructor raises. *)
Record imports := {
  battlevel : option battery;
  launcher_icons : option icon
}.

(** [StatusBar.__init__]. *)
Definition __init__ (height : Z) (use_12h : bool) (env : imports) : t :=
  {| height := height;
     use_12h := use_12h;
     _last_time_str := "";
     _last_batt_level := -1;
     _battery := battlevel env;
     _battery_icon := launcher_icons env |}.

(** What one call of [draw] meets: the palette of [Config()] or the
    exception raised on the way to it, [time.localtime()] reduced to its
    fields 3 and 4, whether the two fonts import, what [read_level()]
    answers, and whether [tft.bitmap] raises. *)
Record draw_env := {
  config_palette : result (list Z);
  localtime : result (Z * Z);
  font_vga1_8x16 : bool;
  font_vga1_8x8 : bool;
  read_level : result Z;
  bitmap_raises : bool
}.

(** [(bg_color, fg_color)], lines 52-60. *)
Definition colors (e : draw_env) : Z * Z :=
  match config_palette e with
  | inr palette =>
      match nth_error palette 1, nth_error palette 0 with
      | Some bg, Some fg => (bg, fg)
      | _, _ => (0x0000, 0xFFFF)
      end
  | inl _ => (0x0000, 0xFFFF)
  end.

(** The candidate [time_str], lines 62-77. *)
Definition time_str (sb : t) (e : draw_env) : string :=
  match localtime e with
  | inr (hour, minute) =>
      let hour :=
        if use_12h sb then
          if hour =? 0 then 12
          else if hour >? 12 then hour - 12
          else hour
        else hour in
      fmt_02d hour ++ ":" ++ fmt_02d minute
  | inl _ => "--:--"
  end.

(** The candidate [batt_level], lines 93-100. *)
Definition batt_level (sb : t) (e : draw_env) : Z :=
  match _battery sb with
  | Some _ =>
      match read_level e with
      | inr level => level
      | inl _ => -1
      end
  | None => -1
  end.

Definition set_last_time_str (sb : t) (s : string) : t :=
  {| height := height sb;
     use_12h := use_12h sb;
     _last_time_str := s;
     _last_batt_level := _last_batt_level sb;
     _battery := _battery sb;
     _battery_icon := _battery_icon sb |}.

Definition set_last_batt_level (sb : t) (level : Z) : t :=
  {| height := height sb;
     use_12h := use_12h sb;
     _last_time_str := _last_time_str sb;
     _last_batt_level := level;
     _battery := _battery sb;
     _battery_icon := _battery_icon sb |}.

(** The calls that paint the time region, lines 81-89. *)
Definition time_ops (sb : t) (e : draw_env) (bg_color fg_color : Z)
    (time_str : string) : list event :=
  [Fill_rect 0 0 60 (height sb) bg_color;
   if font_vga1_8x16 e
   then Text time_str 2 0 fg_color (Some vga1_8x16)
   else Text time_str 2 2 fg_color None].

(** The time region, lines 79-91. *)
Definition draw_time (sb : t) (e : draw_env) (bg_color fg_color : Z)
    (time_str : string) : io t :=
  if negb (String.eqb time_str (_last_time_str sb)) then
    (time_ops sb e bg_color fg_color time_str, set_last_time_str sb time_str)
  else ([], sb).

(** The calls that paint the battery region, lines 104-129. *)
Definition battery_ops (sb : t) (tft : display) (e : draw_env)
    (bg_color fg_color : Z) (batt_level : Z) : list event :=
  let batt_x := width tft - 30 in
  Fill_rect batt_x 0 30 (height sb) bg_color ::
  match batt_level >=? 0, _battery_icon sb with
  | true, Some ic =>
      let icon_x := width tft - 20 in
      let icon_y := 2 in
      Bitmap ic icon_x icon_y (bg_color, fg_color) batt_level ::
      (if bitmap_raises e
       then [Text (str_int batt_level ++ "%") (batt_x + 2) 2 fg_color None]
       else [])
  | true, None =>
      let batt_text := str_int batt_level ++ "%" in
      [if font_vga1_8x8 e
       then Text batt_text (batt_x + 2) 4 fg_color (Some vga1_8x8)
       else Text batt_text (batt_x + 2) 2 fg_color None]
  | false, _ => []
  end.

(** The battery region, lines 102-131. *)
Definition draw_battery (sb : t) (tft : display) (e : draw_env)
    (bg_color fg_color : Z) (batt_level : Z) : io t :=
  if negb (batt_level =? _last_batt_level sb) then
    (battery_ops sb tft e bg_color fg_color batt_level,
     set_last_batt_level sb batt_level)
  else ([], sb).

(** [StatusBar.draw]. *)
Definition draw (sb : t) (tft : display) (e : draw_env) : io t :=
  let (bg_color, fg_color) := colors e in
  (sb1 <- draw_time sb e bg_color fg_color (time_str sb e) ;;
   draw_battery sb1 tft e bg_color fg_color (batt_level sb1 e))%io.

End StatusBar.

(** ** [app-source/IMU_Live/IMU_Live.py]: register codec and readers *)

Module IMU.
Import Py Host.

Definition MPU_PWR_MGMT_1 : Z := 0x6B.
Definition MPU_ACCEL_XOUT_H : Z := 0x3B.
Definition MPU_GYRO_XOUT_H : Z := 0x43.

Definition MPU_ADDRESSES : list Z := [0x68; 0x69].

Definition I2C_TIMEOUT_US : Z := 8000.

Definition MAX_ERROR_CHARS : nat := 28.

(** The arithmetic the module asks of Python floats: conversion of an
    integer operand and true division. *)
Class PyFloat (F : Type) := {
  of_int : Z -> F;
  fdiv : F -> F -> F
}.

#[export] Instance PyFloat_R : PyFloat R := {| of_int := IZR; fdiv := Rdiv |}.
#[export] Instance PyFloat_Q : PyFloat Q := {| of_int := inject_Z; fdiv := Qdiv |}.

(** The literals [16384.0] and [131.0]. *)
Definition ACCEL_SCALE {F} `{PyFloat F} : F := of_int 16384.
Definition GYRO_SCALE {F} `{PyFloat F} : F := of_int 131.

(** The bus as the program meets it during discovery: whether [I2C(...)]
    raises, what [scan()] answers, and whether the wake-up write to an
    address raises. *)
Record bus := {
  bus_new : option exn;
  bus_scan : result (list Z);
  bus_wake : Z -> option exn
}.

Record MPUReader := {
  address : Z;
  _buffer : list Z
}.

(** [MPUReader.__init__]; the [i2c] field is the one bus of the session. *)
Definition MPUReader_init (i2c : bus) (addr : Z) : io (result MPUReader) :=
  match bus_wake i2c addr with
  | None =>
      ([I2C_writeto_mem addr MPU_PWR_MGMT_1 [0x00]; Sleep_ms 100],
       inr {| address := addr; _buffer := repeat 0 14 |})
  | Some e =>
      ([I2C_writeto_mem addr MPU_PWR_MGMT_1 [0x00]],
       inl ("Failed to initialize MPU: " ++ e))
  end.

(** [MPUReader._bytes_to_int16]. *)
Definition _bytes_to_int16 (high_byte low_byte : Z) : Z :=
  let value := Z.lor (Z.shiftl high_byte 8) low_byte in
  if value >=? 0x8000 then value - 0x10000 else value.

(** [buf[i]], which raises [IndexError] past the end. *)
Definition getitem (buf : list Z) (i : nat) : result Z :=
  match nth_error buf i with
  | Some b => inr b
  | None => inl "bytearray index out of range"
  end.

Definition rbind {A B} (m : result A) (k : A -> result B) : result B :=
  match m with
  | inl e => inl e
  | inr a => k a
  end.

Definition raw_sample : Type := (Z * Z * Z * Z * Z * Z)%type.

(** The conversions of [read_raw_data] on the buffer the read filled. *)
Definition decode_block (buf : list Z) : result raw_sample :=
  rbind (getitem buf 0) (fun b0 => rbind (getitem buf 1) (fun b1 =>
  let accel_x := _bytes_to_int16 b0 b1 in
  rbind (getitem buf 2) (fun b2 => rbind (getitem buf 3) (fun b3 =>
  let accel_y := _bytes_to_int16 b2 b3 in
  rbind (getitem buf 4) (fun b4 => rbind (getitem buf 5) (fun b5 =>
  let accel_z := _bytes_to_int16 b4 b5 in
  rbind (getitem buf 8) (fun b8 => rbind (getitem buf 9) (fun b9 =>
  let gyro_x := _bytes_to_int16 b8 b9 in
  rbind (getitem buf 10) (fun b10 => rbind (getitem buf 11) (fun b11 =>
  let gyro_y := _bytes_to_int16 b10 b11 in
  rbind (getitem buf 12) (fun b12 => rbind (getitem buf 13) (fun b13 =>
  let gyro_z := _bytes_to_int16 b12 b13 in
  inr (accel_x, accel_y, accel_z, gyro_x, gyro_y, gyro_z))))))))))))).

(** The [try] body of [read_raw_data]: [rd] is what [readfrom_mem_into]
    does this time, either raising or leaving the given bytes in the
    buffer. *)
Definition read_raw_body (m : MPUReader) (rd : result (list Z))
  : result (MPUReader * raw_sample) :=
  rbind rd (fun buf =>
  rbind (decode_block buf) (fun s =>
  inr ({| address := address m; _buffer := buf |}, s))).

(** [MPUReader.read_raw_data]: [except Exception] turns every failure of
    the body into [None]. *)
Definition read_raw_data (m : MPUReader) (rd : result (list Z))
  : io (MPUReader * option raw_sample) :=
  ([I2C_readfrom_mem_into (address m) MPU_ACCEL_XOUT_H (List.length (_buffer m))],
   match read_raw_body m rd with
   | inr (m', s) => (m', Some s)
   | inl _ => (m, None)
   end).

Definition scaled_sample (F : Type) : Type := (F * F * F * F * F * F)%type.

(** [MPUReader.read_scaled_data]. *)
Definition read_scaled_data {F} `{PyFloat F} (m : MPUReader)
    (rd : result (list Z)) : io (MPUReader * option (scaled_sample F)) :=
  let (t, r) := read_raw_data m rd in
  let (m', raw) := r in
  match raw with
  | None => (t, (m', None))
  | Some (accel_x, accel_y, accel_z, gyro_x, gyro_y, gyro_z) =>
      let ax := fdiv (of_int accel_x) ACCEL_SCALE in
      let ay := fdiv (of_int accel_y) ACCEL_SCALE in
      let az := fdiv (of_int accel_z) ACCEL_SCALE in
      let gx := fdiv (of_int gyro_x) GYRO_SCALE in
      let gy := fdiv (of_int gyro_y) GYRO_SCALE in
      let gz := fdiv (of_int gyro_z) GYRO_SCALE in
      (t, (m', Some (ax, ay, az, gx, gy, gz)))
  end.

(** Python's [math.sqrt], which raises [ValueError] below zero. *)
Definition math_sqrt (x : R) : result R :=
  if Rlt_dec x 0 then inl "math domain error" else inr (sqrt x).

(** Python's [math.atan2], the angle of the point [(x, y)] in radians,
    with the C library's value at the origin. *)
Definition math_atan2 (y x : R) : R :=
  (if Rlt_dec 0 x then atan (y / x)
   else if Rlt_dec x 0 then
     if Rle_dec 0 y then atan (y / x) + PI else atan (y / x) - PI
   else if Rlt_dec 0 y then PI / 2
   else if Rlt_dec y 0 then - (PI / 2)
   else 0)%R.

(** The [try] body of [compute_pitch_roll]. *)
Definition pitch_roll_body (ax ay az : R) : result (R * R) :=
  rbind (math_sqrt (ax * ax + az * az)) (fun root =>
  let pitch := (math_atan2 ay root * 180 / PI)%R in
  let roll := (math_atan2 (- ax) az * 180 / PI)%R in
  inr (pitch, roll)).

(** [compute_pitch_roll]. *)
Definition compute_pitch_roll (ax ay az : R) : R * R :=
  match pitch_roll_body ax ay az with
  | inr pr => pr
  | inl _ => (0%R, 0%R)
  end.

(** The loop [for addr in MPU_ADDRESSES] of [try_init_imu]: [Some] is the
    [return mpu, None] inside the loop, [None] is falling out of it. *)
Fixpoint try_addresses (i2c : bus) (devices addrs : list Z)
  : io (option MPUReader) :=
  match addrs with
  | [] => ([], None)
  | addr :: rest =>
      if mem_int addr devices then
        match MPUReader_init i2c addr with
        | (t, inr mpu) => (t, Some mpu)
        | (t, inl _) =>
            let (t', r) := try_addresses i2c devices rest in
            ((t ++ t')%list, r)
        end
      else try_addresses i2c devices rest
  end.

Definition device_list (devices : list Z) : string :=
  join ", " (map (fun d => "0x" ++ fmt_02X d) devices).

(** [try_init_imu]: the pair [(mpu, error)]. *)
Definition try_init_imu (i2c : bus) : io (option MPUReader * option string) :=
  let opened := I2C_new 0 2 1 100000 I2C_TIMEOUT_US in
  match bus_new i2c with
  | Some e => ([opened], (None, Some ("I2C init failed: " ++ e)))
  | None =>
      match bus_scan i2c with
      | inl e => ([opened; I2C_scan], (None, Some ("I2C scan failed: " ++ e)))
      | inr devices =>
          match devices with
          | [] => ([opened; I2C_scan], (None, Some "No I2C devices found"))
          | _ :: _ =>
              let (t, found) := try_addresses i2c devices MPU_ADDRESSES in
              match found with
              | Some mpu => (opened :: I2C_scan :: t, (Some mpu, None))
              | None =>
                  (opened :: I2C_scan :: t,
                   (None,
                    Some ("No MPU found. Devices: " ++ device_list devices)))
              end
          end
      end
  end.

(** *** [main]: start-up, then one of the two endless loops *)

(** Where [main] is: in the loop that only waits for the exit key
    (lines 187-191), in the read-out loop (lines 196-253) with its
    reader, status bar and [y_offset], stopped by [machine.reset()], or
    ended by an exception nobody caught. *)
Inductive phase :=
| DeviceUnavailable
| Polling (mpu : MPUReader) (status_bar : StatusBar.t) (y_offset : Z)
| Halted
| Crashed (e : exn).

(** What one turn of a loop meets: the keys [get_new_keys()] answers,
    what the register read does, and what [status_bar.draw] sees. *)
Record tick := {
  keys : list string;
  read : result (list Z);
  bar_env : StatusBar.draw_env
}.

Section Main.

(** The display, the palette entries 2, 0 and 10 of [Config()], and the
    rendering of [f"{x:w.pf}"] as a function of [w], [p] and [x]. *)
Variable display : Host.display.
Variables bg_color fg_color highlight_color : Z.
Variable fmt_f : nat -> nat -> R -> string.

Definition text (s : string) (x y color : Z) : io unit :=
  emit (Text s x y color (Some vga1_8x16)).

(** One turn of the loop at lines 187-191. *)
Definition wait_iteration (i : tick) : io phase :=
  (emit Get_new_keys ;;;
   if mem_string "G0" (keys i) then
     emit Machine_reset ;;; ret Halted
   else
     emit (Sleep_ms 50) ;;; ret DeviceUnavailable)%io.

(** Lines 205-250: what is painted for the sample, or for its absence. *)
Definition render (status_bar : StatusBar.t) (y_offset : Z)
    (data : option (scaled_sample R)) (e : StatusBar.draw_env)
  : io StatusBar.t :=
  (match data with
   | Some (ax, ay, az, gx, gy, gz) =>
       let (pitch, roll) := compute_pitch_roll ax ay az in
       emit (Fill_rect 0 (StatusBar.height status_bar) (width display)
               (height display - StatusBar.height status_bar) bg_color) ;;;
       sb <- StatusBar.draw status_bar display e ;;
       let line_height := 16 in
       let y := y_offset in
       text "Accelerometer (g):" 5 y highlight_color ;;;
       let y := y + line_height in
       text (" X: " ++ fmt_f 6 2 ax) 5 y fg_color ;;;
       let y := y + line_height in
       text (" Y: " ++ fmt_f 6 2 ay) 5 y fg_color ;;;
       let y := y + line_height in
       text (" Z: " ++ fmt_f 6 2 az) 5 y fg_color ;;;
       let y := y_offset in
       let x2 := 130 in
       text "Gyro (deg/s):" x2 y highlight_color ;;;
       let y := y + line_height in
       text ("X:" ++ fmt_f 6 1 gx) x2 y fg_color ;;;
       let y := y + line_height in
       text ("Y:" ++ fmt_f 6 1 gy) x2 y fg_color ;;;
       let y := y + line_height in
       text ("Z:" ++ fmt_f 6 1 gz) x2 y fg_color ;;;
       let y := height display - line_height * 2 - 2 in
       text ("Pitch: " ++ fmt_f 6 1 pitch ++ " deg") 5 y highlight_color ;;;
       let y := y + line_height in
       text ("Roll:  " ++ fmt_f 6 1 roll ++ " deg") 5 y highlight_color ;;;
       ret sb
   | None =>
       emit (Fill_rect 0 (StatusBar.height status_bar) (width display)
               (height display - StatusBar.height status_bar) bg_color) ;;;
       sb <- StatusBar.draw status_bar display e ;;
       text "Read error!" 5 y_offset highlight_color ;;;
       ret sb
   end)%io.

(** One turn of the loop at lines 196-253. *)
Definition poll_iteration (mpu : MPUReader) (status_bar : StatusBar.t)
    (y_offset : Z) (i : tick) : io phase :=
  (emit Get_new_keys ;;;
   if mem_string "G0" (keys i) then
     emit Machine_reset ;;; ret Halted
   else
     r <- read_scaled_data mpu (read i) ;;
     sb <- render status_bar y_offset (snd r) (bar_env i) ;;
     emit Show ;;;
     emit (Sleep_ms 100) ;;;
     ret (Polling (fst r) sb y_offset))%io.

(** Lines 157-185 and 194: everything before the loops.  [found] is what
    the two imports of the status bar find, [e1] and [e2] what its two
    draws see. *)
Definition main_start (found : StatusBar.imports) (i2c : bus)
    (e1 e2 : StatusBar.draw_env) : io phase :=
  (let status_bar := StatusBar.__init__ 16 false found in
   emit (Fill bg_color) ;;;
   sb1 <- StatusBar.draw status_bar display e1 ;;
   text "Initializing IMU..." 5 20 fg_color ;;;
   emit Show ;;;
   r <- try_init_imu i2c ;;
   match r with
   | (None, error) =>
       emit (Fill bg_color) ;;;
       sb2 <- StatusBar.draw sb1 display e2 ;;
       text "IMU Error:" 5 20 highlight_color ;;;
       match error with
       | Some msg =>
           text (take MAX_ERROR_CHARS msg) 5 40 fg_color ;;;
           text "Press G0 to exit" 5 100 fg_color ;;;
           emit Show ;;;
           ret DeviceUnavailable
       | None => ret (Crashed "'NoneType' object isn't subscriptable")
       end
   | (Some mpu, _) =>
       let y_offset := StatusBar.height sb1 + 4 in
       ret (Polling mpu sb1 y_offset)
   end)%io.

(** One turn of whichever loop [main] is in. *)
Definition step (p : phase) (i : tick) : io phase :=
  match p with
  | DeviceUnavailable => wait_iteration i
  | Polling mpu status_bar y_offset => poll_iteration mpu status_bar y_offset i
  | Halted => ret Halted
  | Crashed e => ret (Crashed e)
  end.

(** The turns a list of ticks allows. *)
Fixpoint run (p : phase) (ticks : list tick) : io phase :=
  match ticks with
  | [] => ret p
  | i :: rest => (q <- step p i ;; run q rest)%io
  end.

(** [main] over the ticks given. *)
Definition main (found : StatusBar.imports) (i2c : bus)
    (e1 e2 : StatusBar.draw_env) (ticks : list tick) : io phase :=
  (p <- main_start found i2c e1 e2 ;; run p ticks)%io.

End Main.

End IMU.

(** ** [app-source/LiveClock/LiveClock.py] *)

Module LiveClock.
Import Py Host.

(** The calls of the clock app: those of the other modules, and the text
    call with the font [vga2_16x32]. *)
Inductive call :=
| Call (ev : event)
| Text_vga2_16x32 (s : string) (x y color : Z).

Definition calls (t : list event) : list call := map Call t.

(** What one turn of the loop meets: the keys, [time.localtime()]
    reduced to its fields 3, 4 and 5 or the exception it raises, and what
    [status_bar.draw] sees if it is called. *)
Record tick := {
  keys : list string;
  clock : result (Z * Z * Z);
  bar_env : StatusBar.draw_env
}.

(** Where [main] is: in its loop, with the status bar and the local
    [last_time_str], or stopped by [machine.reset()]. *)
Inductive phase :=
| Running (status_bar : StatusBar.t) (last_time_str : string)
| Halted.

(** The candidate [time_str], lines 44-52. *)
Definition time_str (i : tick) : string :=
  match clock i with
  | inr (hour, minute, second) =>
      fmt_02d hour ++ ":" ++ fmt_02d minute ++ ":" ++ fmt_02d second
  | inl _ => "--:--:--"
  end.

Section Main.

(** The display and the palette entries 2, 0 and 10 of [Config()]. *)
Variable display : Host.display.
Variables bg_color fg_color clock_color : Z.

(** Lines 56-85: the redraw of the whole screen. *)
Definition redraw (status_bar : StatusBar.t) (time_str : string)
    (e : StatusBar.draw_env) : list call * StatusBar.t :=
  let drawn := StatusBar.draw status_bar display e in
  let time_width := Z.of_nat (String.length time_str) * 16 in
  let clock_x := (width display - time_width) / 2 in
  let available_height := height display - StatusBar.height status_bar in
  let clock_y := StatusBar.height status_bar + (available_height - 32) / 2 in
  let label := "Press G0 to exit" in
  let label_width := Z.of_nat (String.length label) * 8 in
  let label_x := (width display - label_width) / 2 in
  let label_y := height display - 20 in
  ((Call (Fill_rect 0 (StatusBar.height status_bar) (width display)
            (height display - StatusBar.height status_bar) bg_color) ::
    calls (trace drawn) ++
    [Text_vga2_16x32 time_str clock_x clock_y clock_color;
     Call (Text label label_x label_y fg_color (Some vga1_8x16));
     Call Show])%list,
   value drawn).

(** One turn of the loop at lines 38-88. *)
Definition iteration (status_bar : StatusBar.t) (last_time_str : string)
    (i : tick) : list call * phase :=
  if mem_string "G0" (keys i) then
    ([Call Get_new_keys; Call Machine_reset], Halted)
  else
    let time_str := time_str i in
    if negb (String.eqb time_str last_time_str) then
      let (t, sb) := redraw status_bar time_str (bar_env i) in
      ((Call Get_new_keys :: t ++ [Call (Sleep_ms 100)])%list,
       Running sb time_str)
    else
      ([Call Get_new_keys; Call (Sleep_ms 100)],
       Running status_bar last_time_str).

Definition step (p : phase) (i : tick) : list call * phase :=
  match p with
  | Running status_bar last_time_str => iteration status_bar last_time_str i
  | Halted => ([], Halted)
  end.

(** The turns a list of ticks allows. *)
Fixpoint run (p : phase) (ticks : list tick) : list call * phase :=
  match ticks with
  | [] => ([], p)
  | i :: rest =>
      let (t1, q) := step p i in
      let (t2, r) := run q rest in
      ((t1 ++ t2)%list, r)
  end.

(** [main] over the ticks given; [found] is what the two imports of the
    status bar find. *)
Definition main (found : StatusBar.imports) (ticks : list tick)
  : list call * phase :=
  run (Running (StatusBar.__init__ 16 false found) "") ticks.

End Main.

End LiveClock.

(** ** [app-source/HelloWorld/HelloWorld.py] *)

Module HelloWorld.
Import Py Host.

Inductive phase :=
| Waiting
| Halted.

(** Lines 20-23: the screen, painted once. *)
Definition start : list event :=
  [Fill 0x0000; Text "Hello World" 80 60 0xFFFF None; Show].

(** One turn of the loop at lines 26-32. *)
Definition iteration (keys : list string) : list event * phase :=
  match keys with
  | [] => ([Get_new_keys], Waiting)
  | _ :: _ =>
      if mem_string "GO" keys || mem_string "ENT" keys then
        ([Get_new_keys; Machine_reset], Halted)
      else ([Get_new_keys], Waiting)
  end.

Definition step (p : phase) (keys : list string) : list event * phase :=
  match p with
  | Waiting => iteration keys
  | Halted => ([], Halted)
  end.

Fixpoint run (p : phase) (turns : list (list string)) : list event * phase :=
  match turns with
  | [] => ([], p)
  | keys :: rest =>
      let (t1, q) := step p keys in
      let (t2, r) := run q rest in
      ((t1 ++ t2)%list, r)
  end.

(** The program over the turns given. *)
Definition program (turns : list (list string)) : list event * phase :=
  let (t, p) := run Waiting turns in
  ((start ++ t)%list, p).

End HelloWorld.

(** ** Vocabulary for the properties *)

Module Observe.
Import Py Host IMU.

(** The handle [MPUReader(i2c, addr)] builds. *)
Definition handle (addr : Z) : MPUReader :=
  {| address := addr; _buffer := repeat 0 14 |}.

Definition opened : event := I2C_new 0 2 1 100000 8000.

(** The calls of a wake-up handshake that succeeds, and of one that
    raises. *)
Definition wake_ok (addr : Z) : list event :=
  [I2C_writeto_mem addr 0x6B [0]; Sleep_ms 100].

Definition wake_failed (addr : Z) : list event :=
  [I2C_writeto_mem addr 0x6B [0]].

(** A candidate is ready when it was enumerated and accepts the
    handshake. *)
Definition accepts (i2c : bus) (addr : Z) : bool :=
  match bus_wake i2c addr with
  | None => true
  | Some _ => false
  end.

Definition ready (i2c : bus) (devices : list Z) (addr : Z) : bool :=
  mem_int addr devices && accepts i2c addr.

(** The handshakes issued while walking the candidates: one per
    enumerated candidate, up to and including the first ready one. *)
Fixpoint attempts (i2c : bus) (devices addrs : list Z) : list event :=
  match addrs with
  | [] => []
  | addr :: rest =>
      if mem_int addr devices then
        if accepts i2c addr then wake_ok addr
        else (wake_failed addr ++ attempts i2c devices rest)%list
      else attempts i2c devices rest
  end.

(** [s] occurs in [msg]. *)
Definition occurs (s msg : string) : Prop :=
  exists pre post : string, msg = pre ++ s ++ post.

Definition is_bus_read (ev : event) : bool :=
  match ev with
  | I2C_readfrom_mem_into _ _ _ => true
  | _ => false
  end.

(** A region is painted when the call that clears its area is issued:
    the time area is the 60 columns from the left edge, the battery area
    the 30 columns up to the right edge. *)
Definition paints_time (tr : list event) : Prop :=
  exists h c : Z, In (Fill_rect 0 0 60 h c) tr.

Definition paints_battery (tft : display) (tr : list event) : Prop :=
  exists h c : Z, In (Fill_rect (width tft - 30) 0 30 h c) tr.

Definition is_key_poll (ev : event) : bool :=
  match ev with
  | Get_new_keys => true
  | _ => false
  end.

Definition is_bus_op (ev : event) : bool :=
  match ev with
  | I2C_new _ _ _ _ _ | I2C_scan | I2C_writeto_mem _ _ _
  | I2C_readfrom_mem_into _ _ _ => true
  | _ => false
  end.

Definition is_display_op (ev : event) : bool :=
  match ev with
  | Fill _ | Fill_rect _ _ _ _ _ | Text _ _ _ _ _ | Bitmap _ _ _ _ _
  | Show => true
  | _ => false
  end.

(** No tick of the list carries the exit key. *)
Definition no_exit (ticks : list tick) : Prop :=
  Forall (fun i => mem_string "G0" (keys i) = false) ticks.

Definition is_polling (p : phase) : bool :=
  match p with
  | Polling _ _ _ => true
  | _ => false
  end.

(** The calls discovery may issue when the scan answers [devices]: the
    one constructor call, the scan, the wake-up write of a zero byte to
    the power-management register of an enumerated candidate, and the
    settle delay. *)
Definition discovery_call_ok (devices : list Z) (ev : event) : Prop :=
  match ev with
  | I2C_new _ _ _ _ _ => ev = opened
  | I2C_scan => True
  | I2C_writeto_mem a r d =>
      r = 0x6B /\ d = [0] /\ In a MPU_ADDRESSES /\ In a devices
  | Sleep_ms ms => ms = 100
  | _ => False
  end.

Definition writes_to (a : Z) (ev : event) : bool :=
  match ev with
  | I2C_writeto_mem b _ _ => a =? b
  | _ => false
  end.

(** The calls the status bar may issue: a clear of one of its two areas,
    a strip of the bar's height at the top edge; a text at the left
    margin of an area; the battery icon with an index that is not
    negative. *)
Definition bar_call_ok (sb : StatusBar.t) (tft : display) (ev : event)
  : Prop :=
  match ev with
  | Fill_rect x y w h _ =>
      y = 0 /\ h = StatusBar.height sb /\
      ((x = 0 /\ w = 60) \/ (x = width tft - 30 /\ w = 30))
  | Text _ x y _ _ => (x = 2 \/ x = width tft - 30 + 2) /\ 0 <= y <= 4
  | Bitmap _ x y _ index => x = width tft - 20 /\ y = 2 /\ 0 <= index
  | _ => False
  end.

Definition is_show (ev : event) : bool :=
  match ev with
  | Show => true
  | _ => false
  end.

(** The calls that paint: clears, texts and the icon. *)
Definition is_paint (ev : event) : bool :=
  match ev with
  | Fill_rect _ _ _ _ _ | Text _ _ _ _ _ | Bitmap _ _ _ _ _ => true
  | _ => false
  end.

(** The indicator of a failed read: the text "Read error!" at column 5
    in the font of the app. *)
Definition is_read_error (ev : event) : bool :=
  match ev with
  | Text s x _ _ (Some vga1_8x16) => String.eqb s "Read error!" && (x =? 5)
  | _ => false
  end.

(** A turn whose register read raises or delivers fewer than the 14
    bytes that are indexed. *)
Definition read_fails (i : tick) : bool :=
  match read i with
  | inl _ => true
  | inr buf => (List.length buf <? 14)%nat
  end.

(** [main] is in one of its two loops. *)
Definition is_running (p : phase) : bool :=
  match p with
  | DeviceUnavailable | Polling _ _ _ => true
  | _ => false
  end.

(** What [scan()] enumerated, nothing when it raised. *)
Definition enumerated (i2c : bus) : list Z :=
  match bus_scan i2c with
  | inr devices => devices
  | inl _ => []
  end.

End Observe.

Module ObserveClock.
Import Py Host LiveClock.

Definition is_presentation (c : call) : bool :=
  match c with
  | Call Show => true
  | _ => false
  end.

Definition is_big_text (c : call) : bool :=
  match c with
  | Text_vga2_16x32 _ _ _ _ => true
  | _ => false
  end.

(** No tick of the list carries the exit key. *)
Definition no_exit (ticks : list tick) : Prop :=
  Forall (fun i => mem_string "G0" (keys i) = false) ticks.


(** The clock raises, or its three fields are between 0 and 99. *)
Definition clock_ok (i : tick) : Prop :=
  match clock i with
  | inr (hour, minute, second) =>
      0 <= hour < 100 /\ 0 <= minute < 100 /\ 0 <= second < 100
  | inl _ => True
  end.

(** A turn of [HelloWorld] that carries one of its two exit keys. *)
Definition hello_exit (keys : list string) : bool :=
  mem_string "GO" keys || mem_string "ENT" keys.

End ObserveClock.

(** ** Concrete inputs *)

Module Samples.
Import Py Host IMU.

Definition sample_block : list Z :=
  [0x7F; 0xFF; 0x80; 0x00; 0xFF; 0xFF; 0x12; 0x34;
   0x00; 0x00; 0x00; 0x01; 0xC0; 0x00].

Definition sample_reader : MPUReader :=
  {| address := 0x68; _buffer := repeat 0 14 |}.

(** A bus that answers the scan with an unsupported device and a
    supported one at the second candidate address. *)
Definition bus_second_candidate : bus :=
  {| bus_new := None;
     bus_scan := inr [0x10; 0x69];
     bus_wake := fun _ => None |}.

(** A bus whose only device sits at a candidate address and refuses the
    wake-up write. *)
Definition bus_refusing : bus :=
  {| bus_new := None;
     bus_scan := inr [0x68];
     bus_wake := fun _ => Some "[Errno 19] ENODEV" |}.

Import StatusBar.

(** A 240 by 135 display, the two fonts present, 09:05 on the clock and a
    battery at level 2. *)
Definition tft0 : display := {| Host.width := 240; Host.height := 135 |}.

Definition env0 : draw_env :=
  {| config_palette := inr [65535; 0; 2113];
     localtime := inr (9, 5);
     font_vga1_8x16 := true;
     font_vga1_8x8 := true;
     read_level := inr 2;
     bitmap_raises := false |}.

(** The same with another time on the clock. *)
Definition env_at (hour minute : Z) : draw_env :=
  {| config_palette := inr [65535; 0; 2113];
     localtime := inr (hour, minute);
     font_vga1_8x16 := true;
     font_vga1_8x8 := true;
     read_level := inr 2;
     bitmap_raises := false |}.

Definition no_battery : imports :=
  {| battlevel := None; launcher_icons := None |}.

Definition with_battery : imports :=
  {| battlevel := Some Battery; launcher_icons := Some battery_icon |}.

(** A bus on which the scan finds nothing. *)
Definition bus_empty : bus :=
  {| bus_new := None;
     bus_scan := inr [];
     bus_wake := fun _ => None |}.

(** A turn without keys in which the register read times out. *)
Definition tick_read_fails : tick :=
  {| keys := [];
     read := inl "[Errno 116] ETIMEDOUT";
     bar_env := env0 |}.

(** A turn without keys in which the read delivers [sample_block]. *)
Definition tick_sample : tick :=
  {| keys := [];
     read := inr sample_block;
     bar_env := env0 |}.

(** A turn of the clock app at 09:05:07 without keys. *)
Definition clock_tick : LiveClock.tick :=
  {| LiveClock.keys := [];
     LiveClock.clock := inr (9, 5, 7);
     LiveClock.bar_env := env0 |}.

(** A stand-in for the rendering of floats. *)
Definition fmt_stub (w p : nat) (x : R) : string := "?".

End Samples.

(** * Properties *)

(** ** Formatting *)

Module PyFacts.
Import Py.

Example fmt_02d_7 : fmt_02d 7 = "07". Proof. reflexivity. Qed.
Example fmt_02d_23 : fmt_02d 23 = "23". Proof. reflexivity. Qed.
Example fmt_02d_neg : fmt_02d (-5) = "-5". Proof. reflexivity. Qed.
Example fmt_02X_104 : fmt_02X 104 = "68". Proof. reflexivity. Qed.
Example fmt_02X_10 : fmt_02X 10 = "0A". Proof. reflexivity. Qed.
Example str_int_100 : str_int 100 = "100". Proof. reflexivity. Qed.

Lemma append_nonempty_r (s1 s2 : string) : s2 <> "" -> s1 ++ s2 <> "".
Proof.
  intros H E. destruct s1 as [|c s1]; simpl in E; [auto | discriminate].
Qed.

Lemma append_nonempty_l (s1 s2 : string) : s1 <> "" -> s1 ++ s2 <> "".
Proof.
  intros H E. destruct s1 as [|c s1]; simpl in E; [auto | discriminate].
Qed.

Lemma mem_int_In (x : Z) (l : list Z) : mem_int x l = true <-> In x l.
Proof.
  unfold mem_int. rewrite existsb_exists. split.
  - intros [y [Hy E]]. apply Z.eqb_eq in E. now subst.
  - intros H. exists x. split; [assumption | apply Z.eqb_refl].
Qed.

End PyFacts.

(** ** Register codec *)

Module CodecFacts.
Import Py Host IMU Observe Samples.

Lemma high_low_disjoint (h l : Z) :
  0 <= l < 256 -> Z.land (Z.shiftl h 8) l = 0.
Proof.
  intros Hl. apply Z.bits_inj'. intros n Hn.
  rewrite Z.land_spec, Z.bits_0.
  destruct (Z.ltb_spec n 8) as [Hlt | Hge].
  - rewrite Z.shiftl_spec_low by assumption. reflexivity.
  - replace (Z.testbit l n) with false; [apply andb_false_r |].
    symmetry. destruct (Z.eq_dec l 0) as [-> | Hnz]; [apply Z.bits_0 |].
    apply Z.bits_above_log2; [lia |].
    apply Z.log2_lt_pow2; [lia |].
    apply Z.lt_le_trans with (2 ^ 8); [simpl; lia |].
    apply Z.pow_le_mono_r; lia.
Qed.

(** On bytes the shift-and-or is the positional value of the pair. *)
Lemma combine_bytes (h l : Z) :
  0 <= l < 256 -> Z.lor (Z.shiftl h 8) l = 256 * h + l.
Proof.
  intros Hl. pose proof (Z.add_lor_land (Z.shiftl h 8) l) as E.
  rewrite high_low_disjoint in E by assumption.
  rewrite Z.shiftl_mul_pow2 in E by lia. change (2 ^ 8) with 256 in E.
  rewrite Z.shiftl_mul_pow2 by lia. change (2 ^ 8) with 256. lia.
Qed.

(** The decoded pair is the signed reading of the 16-bit pattern. *)
Lemma bytes_to_int16_signed (h l : Z) :
  0 <= h < 256 -> 0 <= l < 256 ->
  _bytes_to_int16 h l = (256 * h + l + 32768) mod 65536 - 32768.
Proof.
  intros Hh Hl. unfold _bytes_to_int16. cbv zeta.
  rewrite combine_bytes by assumption.
  destruct (Z.geb_spec (256 * h + l) 0x8000) as [Hge | Hlt].
  - replace (256 * h + l + 32768) with (256 * h + l - 32768 + 1 * 65536) by lia.
    rewrite Z.mod_add by lia. rewrite Z.mod_small by lia. lia.
  - rewrite Z.mod_small by lia. lia.
Qed.

Lemma bytes_to_int16_range (h l : Z) :
  0 <= h < 256 -> 0 <= l < 256 ->
  -32768 <= _bytes_to_int16 h l <= 32767.
Proof.
  intros Hh Hl. rewrite bytes_to_int16_signed by assumption.
  pose proof (Z.mod_pos_bound (256 * h + l + 32768) 65536 ltac:(lia)). lia.
Qed.

(** Re-encoding a decoded pair gives the pair back. *)
Lemma bytes_to_int16_roundtrip (h l : Z) :
  0 <= h < 256 -> 0 <= l < 256 ->
  let v := _bytes_to_int16 h l mod 65536 in
  v / 256 = h /\ v mod 256 = l.
Proof.
  intros Hh Hl. cbv zeta. rewrite bytes_to_int16_signed by assumption.
  rewrite Zminus_mod_idemp_l.
  replace (256 * h + l + 32768 - 32768) with (l + h * 256) by lia.
  rewrite (Z.mod_small (l + h * 256)) by lia.
  rewrite Z.div_add by lia. rewrite Z.mod_add by lia.
  rewrite Z.div_small, Z.mod_small by lia. lia.
Qed.

Lemma getitem_nth (buf : list Z) (i : nat) :
  (i < List.length buf)%nat -> getitem buf i = inr (nth i buf 0).
Proof.
  intros Hi. unfold getitem.
  rewrite (nth_error_nth' buf 0 Hi). reflexivity.
Qed.

Lemma decode_block_14 (buf : list Z) :
  List.length buf = 14%nat ->
  decode_block buf =
    inr (_bytes_to_int16 (nth 0 buf 0) (nth 1 buf 0),
         _bytes_to_int16 (nth 2 buf 0) (nth 3 buf 0),
         _bytes_to_int16 (nth 4 buf 0) (nth 5 buf 0),
         _bytes_to_int16 (nth 8 buf 0) (nth 9 buf 0),
         _bytes_to_int16 (nth 10 buf 0) (nth 11 buf 0),
         _bytes_to_int16 (nth 12 buf 0) (nth 13 buf 0)).
Proof.
  intros Hlen. unfold decode_block.
  repeat (rewrite getitem_nth by (rewrite Hlen; lia); unfold rbind at 1).
  reflexivity.
Qed.

(** A block too short for the last index makes the conversions raise. *)
Lemma decode_block_short (buf : list Z) :
  (List.length buf < 14)%nat -> exists e, decode_block buf = inl e.
Proof.
  intros Hlen.
  do 14 (destruct buf as [| ? buf]; [simpl; eexists; reflexivity |]).
  simpl in Hlen. lia.
Qed.

(** C1: the register codec is total over any 14-byte block; each axis is
    decoded as [(high << 8) | low] with [0x10000] subtracted when that is
    at least [0x8000], which on bytes is the two's-complement reading;
    the accelerometer axes come from the byte pairs 0-5 and the gyroscope
    axes from the pairs 8-13, bytes 6-7 being skipped; the patterns
    [7FFF], [8000], [FFFF] and [0000] decode to 32767, -32768, -1 and 0. *)
Theorem C1_register_codec (m : MPUReader) (buf : list Z) :
  List.length buf = 14%nat ->
  (forall h l : Z,
      _bytes_to_int16 h l =
      if Z.lor (Z.shiftl h 8) l >=? 0x8000
      then Z.lor (Z.shiftl h 8) l - 0x10000
      else Z.lor (Z.shiftl h 8) l) /\
  (forall h l : Z, 0 <= h < 256 -> 0 <= l < 256 ->
      _bytes_to_int16 h l = (256 * h + l + 32768) mod 65536 - 32768) /\
  decode_block buf =
    inr (_bytes_to_int16 (nth 0 buf 0) (nth 1 buf 0),
         _bytes_to_int16 (nth 2 buf 0) (nth 3 buf 0),
         _bytes_to_int16 (nth 4 buf 0) (nth 5 buf 0),
         _bytes_to_int16 (nth 8 buf 0) (nth 9 buf 0),
         _bytes_to_int16 (nth 10 buf 0) (nth 11 buf 0),
         _bytes_to_int16 (nth 12 buf 0) (nth 13 buf 0)) /\
  snd (value (read_raw_data m (inr buf))) =
    Some (_bytes_to_int16 (nth 0 buf 0) (nth 1 buf 0),
          _bytes_to_int16 (nth 2 buf 0) (nth 3 buf 0),
          _bytes_to_int16 (nth 4 buf 0) (nth 5 buf 0),
          _bytes_to_int16 (nth 8 buf 0) (nth 9 buf 0),
          _bytes_to_int16 (nth 10 buf 0) (nth 11 buf 0),
          _bytes_to_int16 (nth 12 buf 0) (nth 13 buf 0)) /\
  _bytes_to_int16 0x7F 0xFF = 32767 /\
  _bytes_to_int16 0x80 0x00 = -32768 /\
  _bytes_to_int16 0xFF 0xFF = -1 /\
  _bytes_to_int16 0x00 0x00 = 0.
Proof.
  intros Hlen. split; [| split; [| split; [| split]]].
  - intros h l. reflexivity.
  - intros h l. apply bytes_to_int16_signed.
  - apply decode_block_14, Hlen.
  - unfold read_raw_data, read_raw_body, value. cbn [snd rbind].
    rewrite (decode_block_14 buf Hlen). reflexivity.
  - repeat split; reflexivity.
Qed.

Lemma C1_register_codec_witness :
  List.length sample_block = 14%nat /\
  decode_block sample_block = inr (32767, -32768, -1, 0, 1, -16384).
Proof.
  split; [reflexivity |].
  exact (proj1 (proj2 (proj2
           (C1_register_codec sample_reader sample_block eq_refl)))).
Defined.

End CodecFacts.

(** ** Scaled reader *)

Module ScaledFacts.
Import Py Host IMU Observe Samples.

Lemma read_scaled_trace {F} `{PyFloat F} (m : MPUReader) (rd : result (list Z)) :
  trace (read_scaled_data (F := F) m rd) = trace (read_raw_data m rd).
Proof.
  unfold read_scaled_data, trace.
  destruct (read_raw_data m rd) as [t [m' [[[[[[? ?] ?] ?] ?] ?] |]]];
    reflexivity.
Qed.

(** A read that raises, or a block too short to index, gives [None]. *)
Lemma read_scaled_failure {F} `{PyFloat F} (m : MPUReader) (rd : result (list Z)) :
  snd (value (read_raw_data m rd)) = None ->
  value (read_scaled_data (F := F) m rd) = (m, None).
Proof.
  unfold read_scaled_data, read_raw_data, value. cbn [snd].
  destruct (read_raw_body m rd) as [e | [m' s]]; cbn [snd]; intros E.
  - reflexivity.
  - discriminate.
Qed.

(** C2: whenever the raw read yields a sample, the scaled reader yields
    the six values obtained by dividing the signed raw value by the fixed
    scale constant, 16384.0 for the accelerometer axes and 131.0 for the
    gyroscope axes, whatever the sign of the raw value. *)
Theorem C2_scaled_reader {F} `{PyFloat F} (m m' : MPUReader) (rd : result (list Z))
    (accel_x accel_y accel_z gyro_x gyro_y gyro_z : Z) :
  value (read_raw_data m rd) =
    (m', Some (accel_x, accel_y, accel_z, gyro_x, gyro_y, gyro_z)) ->
  value (read_scaled_data (F := F) m rd) =
    (m', Some (fdiv (of_int accel_x) (of_int 16384),
               fdiv (of_int accel_y) (of_int 16384),
               fdiv (of_int accel_z) (of_int 16384),
               fdiv (of_int gyro_x) (of_int 131),
               fdiv (of_int gyro_y) (of_int 131),
               fdiv (of_int gyro_z) (of_int 131))).
Proof.
  unfold read_scaled_data, value.
  destruct (read_raw_data m rd) as [t [m0 raw]]. cbn [snd].
  intros E. injection E as -> ->. reflexivity.
Qed.

Lemma C2_scaled_reader_witness :
  value (read_raw_data sample_reader (inr sample_block)) =
    ({| address := 0x68; _buffer := sample_block |},
     Some (32767, -32768, -1, 0, 1, -16384)) /\
  value (read_scaled_data (F := Q) sample_reader (inr sample_block)) =
    ({| address := 0x68; _buffer := sample_block |},
     Some ((32767 # 16384)%Q, (-32768 # 16384)%Q, (-1 # 16384)%Q,
           (0 # 131)%Q, (1 # 131)%Q, (-16384 # 131)%Q)).
Proof.
  split; [reflexivity |].
  exact (C2_scaled_reader (F := Q) sample_reader _ (inr sample_block)
           32767 (-32768) (-1) 0 1 (-16384) eq_refl).
Defined.

(** On real numbers the division is the exact quotient. *)
Corollary read_scaled_data_real (m m' : MPUReader) (rd : result (list Z))
    (accel_x accel_y accel_z gyro_x gyro_y gyro_z : Z) :
  value (read_raw_data m rd) =
    (m', Some (accel_x, accel_y, accel_z, gyro_x, gyro_y, gyro_z)) ->
  value (read_scaled_data (F := R) m rd) =
    (m', Some (IZR accel_x / 16384, IZR accel_y / 16384, IZR accel_z / 16384,
               IZR gyro_x / 131, IZR gyro_y / 131, IZR gyro_z / 131)%R).
Proof.
  unfold read_scaled_data, value.
  destruct (read_raw_data m rd) as [t [m0 raw]]. cbn [snd].
  intros E. injection E as -> ->. reflexivity.
Qed.

(** A negative raw value gives the negative quotient: full scale down is
    [-2 g]. *)
Example scaled_negative_full_scale :
  (fdiv (of_int (_bytes_to_int16 0x80 0x00)) ACCEL_SCALE == -2)%Q.
Proof. reflexivity. Qed.

End ScaledFacts.

(** ** Orientation estimator *)

Module OrientationFacts.
Import Py Host IMU Observe Samples.

Local Open Scope R_scope.

Lemma sum_squares_nonneg (a b : R) : 0 <= a * a + b * b.
Proof. nra. Qed.

(** The square root never raises on a sum of two squares. *)
Lemma math_sqrt_sum_squares (a b : R) :
  math_sqrt (a * a + b * b) = inr (sqrt (a * a + b * b)).
Proof.
  unfold math_sqrt. destruct (Rlt_dec (a * a + b * b) 0) as [Hneg | _].
  - pose proof (sum_squares_nonneg a b). lra.
  - reflexivity.
Qed.

Lemma math_atan2_origin : math_atan2 0 0 = 0.
Proof.
  unfold math_atan2.
  destruct (Rlt_dec 0 0) as [H | _]; [lra |]. reflexivity.
Qed.

Lemma math_atan2_pos_x (y x : R) : 0 < x -> math_atan2 y x = atan (y / x).
Proof.
  intros Hx. unfold math_atan2.
  destruct (Rlt_dec 0 x) as [_ | H]; [reflexivity | contradiction].
Qed.

Lemma math_atan2_neg_y_axis (y : R) : y < 0 -> math_atan2 y 0 = - (PI / 2).
Proof.
  intros Hy. unfold math_atan2.
  destruct (Rlt_dec 0 0) as [H | _]; [lra |].
  destruct (Rlt_dec 0 y) as [H | _]; [lra |].
  destruct (Rlt_dec y 0) as [_ | H]; [reflexivity | contradiction].
Qed.

Lemma compute_pitch_roll_eq (ax ay az : R) :
  compute_pitch_roll ax ay az =
    (math_atan2 ay (sqrt (ax * ax + az * az)) * 180 / PI,
     math_atan2 (- ax) az * 180 / PI).
Proof.
  unfold compute_pitch_roll, pitch_roll_body.
  rewrite math_sqrt_sum_squares. reflexivity.
Qed.

(** C3: the orientation estimator is the function
    [pitch = atan2(ay, sqrt(ax^2 + az^2)) * 180/pi],
    [roll = atan2(-ax, az) * 180/pi] of its three arguments, the handler
    of its [try] never being reached, and at [ax = ay = az = 0] it
    returns [(0, 0)]. *)
Theorem C3_orientation (ax ay az : R) :
  pitch_roll_body ax ay az =
    inr (math_atan2 ay (sqrt (ax * ax + az * az)) * 180 / PI,
         math_atan2 (- ax) az * 180 / PI) /\
  compute_pitch_roll ax ay az =
    (math_atan2 ay (sqrt (ax * ax + az * az)) * 180 / PI,
     math_atan2 (- ax) az * 180 / PI) /\
  pitch_roll_body 0 0 0 = inr (0, 0) /\
  compute_pitch_roll 0 0 0 = (0, 0).
Proof.
  assert (Hzero : pitch_roll_body 0 0 0 = inr (0, 0)).
  { unfold pitch_roll_body. rewrite math_sqrt_sum_squares. cbn [rbind].
    replace (0 * 0 + 0 * 0) with 0 by ring. rewrite sqrt_0.
    replace (- 0) with 0 by ring. rewrite math_atan2_origin.
    do 2 f_equal; unfold Rdiv; ring. }
  split; [| split; [| split]].
  - unfold pitch_roll_body. rewrite math_sqrt_sum_squares. reflexivity.
  - apply compute_pitch_roll_eq.
  - exact Hzero.
  - unfold compute_pitch_roll. rewrite Hzero. reflexivity.
Qed.

(** Gravity along +z: the sensor lies flat. *)
Lemma compute_pitch_roll_flat : compute_pitch_roll 0 0 1 = (0, 0).
Proof.
  rewrite compute_pitch_roll_eq.
  replace (0 * 0 + 1 * 1) with 1 by ring. rewrite sqrt_1.
  replace (- 0) with 0 by ring.
  rewrite math_atan2_pos_x by lra.
  replace (0 / 1) with 0 by field. rewrite atan_0.
  do 2 f_equal; unfold Rdiv; ring.
Qed.

(** Gravity along +x: the roll is a quarter turn, with the minus sign of
    [atan2(-ax, az)]. *)
Lemma compute_pitch_roll_x_axis : compute_pitch_roll 1 0 0 = (0, -90).
Proof.
  rewrite compute_pitch_roll_eq.
  replace (1 * 1 + 0 * 0) with 1 by ring. rewrite sqrt_1.
  rewrite math_atan2_pos_x by lra.
  replace (0 / 1) with 0 by field. rewrite atan_0.
  rewrite math_atan2_neg_y_axis by lra.
  pose proof PI_RGT_0 as Hpi.
  f_equal; field; lra.
Qed.

End OrientationFacts.

(** ** Device discovery *)

Module DiscoveryFacts.
Import Py Host IMU Observe Samples.

Lemma string_app_assoc (a b c : string) : (a ++ b) ++ c = a ++ (b ++ c).
Proof.
  induction a as [| ch a IH]; simpl; [reflexivity | now rewrite IH].
Qed.

Lemma string_app_nil_r (a : string) : a ++ "" = a.
Proof.
  induction a as [| ch a IH]; simpl; [reflexivity | now rewrite IH].
Qed.

Lemma occurs_prefix (pre s msg : string) :
  occurs s msg -> occurs s (pre ++ msg).
Proof.
  intros (p & q & ->). exists (pre ++ p), q. now rewrite string_app_assoc.
Qed.

Lemma occurs_join (sep x : string) (l : list string) :
  In x l -> occurs x (join sep l).
Proof.
  induction l as [| y l IH]; intros Hin; [contradiction |].
  destruct l as [| z l].
  - destruct Hin as [-> | []]. exists "", "". simpl. now rewrite string_app_nil_r.
  - change (join sep (y :: z :: l)) with (y ++ sep ++ join sep (z :: l)).
    destruct Hin as [-> | Hin].
    + exists "", (sep ++ join sep (z :: l)). reflexivity.
    + apply occurs_prefix, occurs_prefix, IH, Hin.
Qed.

Lemma MPUReader_init_accepts (i2c : bus) (addr : Z) :
  accepts i2c addr = true ->
  MPUReader_init i2c addr = (wake_ok addr, inr (handle addr)).
Proof.
  unfold accepts, MPUReader_init. destruct (bus_wake i2c addr); [discriminate |].
  reflexivity.
Qed.

Lemma MPUReader_init_refuses (i2c : bus) (addr : Z) :
  accepts i2c addr = false ->
  exists e, MPUReader_init i2c addr = (wake_failed addr, inl e).
Proof.
  unfold accepts, MPUReader_init. destruct (bus_wake i2c addr); [| discriminate].
  intros _. eexists. reflexivity.
Qed.

(** The loop returns the first ready candidate, if any, and issues
    exactly the handshakes of [attempts]. *)
Lemma try_addresses_spec (i2c : bus) (devices addrs : list Z) :
  try_addresses i2c devices addrs =
    (attempts i2c devices addrs,
     option_map handle (find (ready i2c devices) addrs)).
Proof.
  induction addrs as [| addr rest IH]; [reflexivity |].
  cbn [try_addresses attempts find]. unfold ready at 1.
  destruct (mem_int addr devices); cbn [andb]; [| exact IH].
  destruct (accepts i2c addr) eqn:Hacc.
  - rewrite (MPUReader_init_accepts _ _ Hacc). reflexivity.
  - destruct (MPUReader_init_refuses _ _ Hacc) as [e ->].
    rewrite IH. reflexivity.
Qed.

(** No handshake is addressed to a device that was not enumerated. *)
Lemma attempts_enumerated (i2c : bus) (devices addrs : list Z)
    (a r : Z) (d : list Z) :
  In (I2C_writeto_mem a r d) (attempts i2c devices addrs) -> In a devices.
Proof.
  induction addrs as [| addr rest IH]; cbn [attempts]; [contradiction |].
  destruct (mem_int addr devices) eqn:Hmem; [| exact IH].
  apply PyFacts.mem_int_In in Hmem.
  destruct (accepts i2c addr).
  - intros [E | [E | []]]; [injection E as <- _ _; assumption | discriminate].
  - intros [E | Hin]; [injection E as <- _ _; assumption | auto].
Qed.

(** With the bus open and the scan answered, the outcome in terms of the
    candidate walk. *)
Lemma try_init_imu_scanned (i2c : bus) (d : Z) (devices : list Z) :
  bus_new i2c = None -> bus_scan i2c = inr (d :: devices) ->
  try_init_imu i2c =
    (opened :: I2C_scan :: attempts i2c (d :: devices) MPU_ADDRESSES,
     match find (ready i2c (d :: devices)) MPU_ADDRESSES with
     | Some addr => (Some (handle addr), None)
     | None =>
         (None, Some ("No MPU found. Devices: " ++ device_list (d :: devices)))
     end).
Proof.
  intros Hnew Hscan. unfold try_init_imu. rewrite Hnew, Hscan.
  rewrite try_addresses_spec.
  destruct (find (ready i2c (d :: devices)) MPU_ADDRESSES); reflexivity.
Qed.

Lemma ready_false_not_enumerated (i2c : bus) (devices : list Z) (a : Z) :
  ~ In a devices -> ready i2c devices a = false.
Proof.
  intros Hn. unfold ready. destruct (mem_int a devices) eqn:E; [| reflexivity].
  apply PyFacts.mem_int_In in E. contradiction.
Qed.

Lemma mem_int_false (devices : list Z) (a : Z) :
  ~ In a devices -> mem_int a devices = false.
Proof.
  intros Hn. destruct (mem_int a devices) eqn:E; [| reflexivity].
  apply PyFacts.mem_int_In in E. contradiction.
Qed.

(** A failed discovery always carries an error text. *)
Lemma try_init_imu_failure (i2c : bus) :
  fst (value (try_init_imu i2c)) = None ->
  exists msg : string, value (try_init_imu i2c) = (None, Some msg).
Proof.
  unfold try_init_imu, value.
  destruct (bus_new i2c) as [e |]; [intros _; eexists; reflexivity |].
  destruct (bus_scan i2c) as [e | [| d devices]];
    [intros _; eexists; reflexivity | intros _; eexists; reflexivity |].
  rewrite try_addresses_spec.
  destruct (find (ready i2c (d :: devices)) MPU_ADDRESSES) as [a |];
    cbn [fst snd option_map]; [discriminate | intros _; eexists; reflexivity].
Qed.

Lemma attempts_no_read (i2c : bus) (devices addrs : list Z) :
  Forall (fun ev => is_bus_read ev = false) (attempts i2c devices addrs).
Proof.
  induction addrs as [| addr rest IH]; cbn [attempts]; [constructor |].
  destruct (mem_int addr devices); [| exact IH].
  destruct (accepts i2c addr).
  - repeat constructor.
  - constructor; [reflexivity | exact IH].
Qed.

(** Discovery scans and writes, it never reads registers. *)
Lemma try_init_imu_no_read (i2c : bus) :
  Forall (fun ev => is_bus_read ev = false) (trace (try_init_imu i2c)).
Proof.
  unfold try_init_imu, trace.
  destruct (bus_new i2c) as [e |]; [repeat constructor |].
  destruct (bus_scan i2c) as [e | [| d devices]];
    [repeat constructor | repeat constructor |].
  rewrite try_addresses_spec.
  destruct (find (ready i2c (d :: devices)) MPU_ADDRESSES) as [a |];
    cbn [fst option_map];
    (constructor; [reflexivity |]); (constructor; [reflexivity |]);
    apply attempts_no_read.
Qed.

(** C4: with the bus open and the scan answered, an empty enumeration
    gives the failure "No I2C devices found"; an enumerated candidate
    that accepts the wake-up write gives a handle bound to its address,
    the candidates being walked in the order 0x68, 0x69 and the walk
    stopping at the first one that is enumerated and accepts; an
    enumeration without any candidate gives the failure whose text lists
    every enumerated address. *)
Theorem C4_discovery (i2c : bus) (devices : list Z) :
  bus_new i2c = None -> bus_scan i2c = inr devices ->
  (devices = [] ->
   try_init_imu i2c =
     ([opened; I2C_scan], (None, Some "No I2C devices found"))) /\
  (In 0x68 devices -> accepts i2c 0x68 = true ->
   try_init_imu i2c =
     (opened :: I2C_scan :: wake_ok 0x68, (Some (handle 0x68), None))) /\
  (In 0x69 devices -> accepts i2c 0x69 = true ->
   ready i2c devices 0x68 = false ->
   try_init_imu i2c =
     (opened :: I2C_scan ::
        (if mem_int 0x68 devices then wake_failed 0x68 else []) ++
        wake_ok 0x69,
      (Some (handle 0x69), None))%list) /\
  (devices <> [] -> ~ In 0x68 devices -> ~ In 0x69 devices ->
   try_init_imu i2c =
     ([opened; I2C_scan],
      (None, Some ("No MPU found. Devices: " ++ device_list devices))) /\
   forall d : Z, In d devices ->
     occurs ("0x" ++ fmt_02X d)
            ("No MPU found. Devices: " ++ device_list devices)).
Proof.
  intros Hnew Hscan. split; [| split; [| split]].
  - intros ->. unfold try_init_imu. rewrite Hnew, Hscan. reflexivity.
  - intros Hin Hacc. destruct devices as [| d devices]; [contradiction |].
    rewrite (try_init_imu_scanned _ _ _ Hnew Hscan).
    apply PyFacts.mem_int_In in Hin.
    cbn [MPU_ADDRESSES attempts find]. unfold ready. rewrite Hin, Hacc.
    reflexivity.
  - intros Hin Hacc H68. destruct devices as [| d devices]; [contradiction |].
    rewrite (try_init_imu_scanned _ _ _ Hnew Hscan).
    apply PyFacts.mem_int_In in Hin.
    cbn [MPU_ADDRESSES attempts find]. rewrite H68.
    unfold ready at 1. rewrite Hin, Hacc. cbn [andb].
    unfold ready in H68.
    destruct (mem_int 104 (d :: devices)); cbn [andb] in H68.
    + rewrite H68. reflexivity.
    + reflexivity.
  - intros Hne H68 H69. destruct devices as [| d devices]; [congruence |].
    split.
    + rewrite (try_init_imu_scanned _ _ _ Hnew Hscan).
      cbn [MPU_ADDRESSES attempts find].
      rewrite !ready_false_not_enumerated by assumption.
      rewrite !mem_int_false by assumption. reflexivity.
    + intros x Hx. apply occurs_prefix. unfold device_list.
      apply occurs_join. apply (in_map (fun d => "0x" ++ fmt_02X d)), Hx.
Qed.

Lemma C4_discovery_witness :
  bus_new bus_second_candidate = None /\
  bus_scan bus_second_candidate = inr [0x10; 0x69] /\
  try_init_imu bus_second_candidate =
    ([opened; I2C_scan; I2C_writeto_mem 0x69 0x6B [0]; Sleep_ms 100],
     (Some (handle 0x69), None)).
Proof.
  split; [reflexivity | split; [reflexivity |]].
  refine (proj1 (proj2 (proj2
            (C4_discovery bus_second_candidate [0x10; 0x69] eq_refl eq_refl)))
          _ eq_refl eq_refl).
  right. left. reflexivity.
Defined.

(** C10: discovery returns either a handle and no error, or no handle
    and a non-empty error text, and nothing else; and when candidates
    are enumerated but each of them refuses the wake-up write, the error
    is the "No MPU found" text with the enumerated addresses, the same
    as when no candidate is enumerated at all. *)
Theorem C10_discovery_outcome (i2c : bus) :
  ((exists mpu : MPUReader, value (try_init_imu i2c) = (Some mpu, None)) \/
   (exists msg : string,
       value (try_init_imu i2c) = (None, Some msg) /\ msg <> "")) /\
  (forall devices : list Z,
      bus_new i2c = None -> bus_scan i2c = inr devices ->
      (exists a : Z, In a MPU_ADDRESSES /\ In a devices) ->
      (forall a : Z, In a MPU_ADDRESSES -> In a devices ->
                     accepts i2c a = false) ->
      value (try_init_imu i2c) =
        (None, Some ("No MPU found. Devices: " ++ device_list devices))).
Proof.
  split.
  - unfold try_init_imu.
    destruct (bus_new i2c) as [e |].
    { right. eexists. split; [reflexivity | discriminate]. }
    destruct (bus_scan i2c) as [e | [| d devices]].
    { right. eexists. split; [reflexivity | discriminate]. }
    { right. eexists. split; [reflexivity | discriminate]. }
    rewrite try_addresses_spec.
    destruct (find (ready i2c (d :: devices)) MPU_ADDRESSES) as [a |].
    + left. eexists. reflexivity.
    + right. eexists. split; [reflexivity | discriminate].
  - intros devices Hnew Hscan (a & Ha & Hin) Hrefuse.
    destruct devices as [| d devices]; [contradiction |].
    rewrite (try_init_imu_scanned _ _ _ Hnew Hscan). unfold value. cbn [snd].
    destruct (find (ready i2c (d :: devices)) MPU_ADDRESSES) as [b |] eqn:E;
      [| reflexivity].
    apply find_some in E. destruct E as [Hb Hready].
    unfold ready in Hready. apply andb_prop in Hready.
    destruct Hready as [Hmem Hacc]. apply PyFacts.mem_int_In in Hmem.
    rewrite (Hrefuse b Hb Hmem) in Hacc. discriminate.
Qed.

Lemma C10_discovery_outcome_witness :
  bus_new bus_refusing = None /\
  bus_scan bus_refusing = inr [0x68] /\
  value (try_init_imu bus_refusing) =
    (None, Some "No MPU found. Devices: 0x68").
Proof.
  split; [reflexivity | split; [reflexivity |]].
  refine (proj2 (C10_discovery_outcome bus_refusing) [0x68] eq_refl eq_refl _ _).
  - exists 0x68. split; left; reflexivity.
  - intros a _ _. reflexivity.
Defined.

End DiscoveryFacts.

(** ** Status bar redraw cache *)

Module StatusBarFacts.
Import Py Host Observe Samples.
Import StatusBar.

Lemma fmt_02d_nonempty (z : Z) : fmt_02d z <> "".
Proof.
  unfold fmt_02d. destruct (z <? 0); [discriminate |].
  unfold pad0, dec_digits.
  apply PyFacts.append_nonempty_r.
  destruct (Z.abs_N z) as [| p]; [discriminate |].
  cbn [N.to_uint].
  destruct (Pos.to_uint p) eqn:E; try discriminate.
  exfalso. exact (DecimalPos.Unsigned.to_uint_nonnil p E).
Qed.

(** No candidate time string is the empty string. *)
Lemma time_str_nonempty (sb : t) (e : draw_env) : time_str sb e <> "".
Proof.
  unfold time_str. destruct (localtime e) as [x | [hour minute]].
  - discriminate.
  - apply PyFacts.append_nonempty_l, fmt_02d_nonempty.
Qed.

Lemma string_eqb_false (a b : string) : a <> b -> String.eqb a b = false.
Proof. intros H. now apply String.eqb_neq. Qed.

Lemma batt_level_no_battery (sb : t) (e : draw_env) :
  _battery sb = None -> batt_level sb e = -1.
Proof. unfold batt_level. now intros ->. Qed.

Lemma batt_level_read_fails (sb : t) (e : draw_env) (x : exn) :
  read_level e = inl x -> batt_level sb e = -1.
Proof. unfold batt_level. intros ->. now destruct (_battery sb). Qed.

(** Updating the cached time leaves what the battery region reads. *)
Lemma batt_level_set_time (sb : t) (s : string) (e : draw_env) :
  batt_level (set_last_time_str sb s) e = batt_level sb e.
Proof. reflexivity. Qed.

Lemma battery_ops_set_time (sb : t) (s : string) (tft : display)
    (e : draw_env) (bg fg level : Z) :
  battery_ops (set_last_time_str sb s) tft e bg fg level =
  battery_ops sb tft e bg fg level.
Proof. reflexivity. Qed.

Lemma time_ops_nonempty (sb : t) (e : draw_env) (bg fg : Z) (s : string) :
  time_ops sb e bg fg s <> [].
Proof. discriminate. Qed.

Lemma battery_ops_nonempty (sb : t) (tft : display) (e : draw_env)
    (bg fg level : Z) :
  battery_ops sb tft e bg fg level <> [].
Proof. discriminate. Qed.

(** [draw] as the two regions one after the other, each painted exactly
    when its candidate differs from the cached value. *)
Lemma draw_unfold (sb : t) (tft : display) (e : draw_env) :
  draw sb tft e =
    (((if String.eqb (time_str sb e) (_last_time_str sb) then []
       else time_ops sb e (fst (colors e)) (snd (colors e)) (time_str sb e)) ++
      (if batt_level sb e =? _last_batt_level sb then []
       else battery_ops sb tft e (fst (colors e)) (snd (colors e))
              (batt_level sb e)))%list,
     let sb1 :=
       if String.eqb (time_str sb e) (_last_time_str sb) then sb
       else set_last_time_str sb (time_str sb e) in
     if batt_level sb e =? _last_batt_level sb then sb1
     else set_last_batt_level sb1 (batt_level sb e)).
Proof.
  unfold draw. destruct (colors e) as [bg fg]. cbn [fst snd].
  unfold draw_time, draw_battery, bind.
  destruct (String.eqb (time_str sb e) (_last_time_str sb)); cbn [negb];
    rewrite ?batt_level_set_time, ?battery_ops_set_time;
    cbn [_last_batt_level set_last_time_str];
    destruct (batt_level sb e =? _last_batt_level sb); reflexivity.
Qed.

Lemma time_ops_not_battery (sb : t) (tft : display) (e : draw_env)
    (bg fg : Z) (s : string) :
  ~ paints_battery tft (time_ops sb e bg fg s).
Proof.
  intros (h & c & [E | [E | []]]).
  - discriminate.
  - destruct (font_vga1_8x16 e); discriminate.
Qed.

Lemma battery_ops_paints (sb : t) (tft : display) (e : draw_env)
    (bg fg level : Z) :
  paints_battery tft (battery_ops sb tft e bg fg level).
Proof. exists (height sb), bg. left. reflexivity. Qed.

(** C5, as the code has it: on a freshly constructed status bar the
    cached time is the empty string and the cached level is -1; no
    candidate time is empty, so the first draw always paints the time
    region; the battery region is painted on the first draw exactly when
    the candidate level is not -1; afterwards the cache holds both
    candidates. *)
Theorem C5_first_draw (h : Z) (u : bool) (found : imports) (tft : display)
    (e : draw_env) :
  let sb0 := __init__ h u found in
  let first := draw sb0 tft e in
  _last_time_str sb0 = "" /\ _last_batt_level sb0 = -1 /\
  time_str sb0 e <> "" /\
  trace first =
    (time_ops sb0 e (fst (colors e)) (snd (colors e)) (time_str sb0 e) ++
     (if batt_level sb0 e =? -1 then []
      else battery_ops sb0 tft e (fst (colors e)) (snd (colors e))
             (batt_level sb0 e)))%list /\
  paints_time (trace first) /\
  (paints_battery tft (trace first) <-> batt_level sb0 e <> -1) /\
  _last_time_str (value first) = time_str sb0 e /\
  _last_batt_level (value first) = batt_level sb0 e.
Proof.
  cbv zeta. set (sb0 := __init__ h u found).
  assert (Ht : String.eqb (time_str sb0 e) (_last_time_str sb0) = false)
    by (apply string_eqb_false, time_str_nonempty).
  assert (Htr : trace (draw sb0 tft e) =
    (time_ops sb0 e (fst (colors e)) (snd (colors e)) (time_str sb0 e) ++
     (if batt_level sb0 e =? -1 then []
      else battery_ops sb0 tft e (fst (colors e)) (snd (colors e))
             (batt_level sb0 e)))%list).
  { rewrite draw_unfold. unfold trace. cbn [fst]. rewrite Ht. reflexivity. }
  split; [reflexivity | split; [reflexivity |]].
  split; [apply time_str_nonempty |].
  split; [exact Htr |].
  split; [| split; [| split]].
  - rewrite Htr. exists (height sb0), (fst (colors e)).
    apply in_or_app. left. left. reflexivity.
  - rewrite Htr. destruct (Z.eqb_spec (batt_level sb0 e) (-1)) as [E | E].
    + rewrite app_nil_r. split; [| congruence].
      intros Hp. exfalso. exact (time_ops_not_battery _ _ _ _ _ _ Hp).
    + split; [intros _; exact E |]. intros _.
      exists (height sb0), (fst (colors e)).
      apply in_or_app. right. left. reflexivity.
  - rewrite draw_unfold. unfold value. cbn [snd]. rewrite Ht.
    destruct (batt_level sb0 e =? _last_batt_level sb0); reflexivity.
  - rewrite draw_unfold. unfold value. cbn [snd]. rewrite Ht.
    destruct (Z.eqb_spec (batt_level sb0 e) (_last_batt_level sb0)) as [E | E];
      [symmetry; exact E | reflexivity].
Qed.

(** C5 as stated fails: with no battery reader the candidate level is
    the initial -1, and the first draw paints the time region only. *)
Lemma C5_counterexample :
  trace (draw (__init__ 16 false no_battery) tft0 env0) =
    [Fill_rect 0 0 60 16 0; Text "09:05" 2 0 65535 (Some vga1_8x16)] /\
  ~ paints_battery tft0 (trace (draw (__init__ 16 false no_battery) tft0 env0)).
Proof.
  split; [reflexivity |].
  intros (h & c & [E | [E | []]]); discriminate.
Qed.

(** The same happens with a battery reader whose read raises. *)
Lemma first_draw_failing_read :
  let e := {| config_palette := config_palette env0;
              localtime := localtime env0;
              font_vga1_8x16 := true;
              font_vga1_8x8 := true;
              read_level := inl "read failed";
              bitmap_raises := false |} in
  trace (draw (__init__ 16 false with_battery) tft0 e) =
    [Fill_rect 0 0 60 16 0; Text "09:05" 2 0 65535 (Some vga1_8x16)].
Proof. reflexivity. Qed.

(** With a battery at level 2, the first draw paints both regions. *)
Lemma first_draw_with_battery :
  trace (draw (__init__ 16 false with_battery) tft0 env0) =
    [Fill_rect 0 0 60 16 0; Text "09:05" 2 0 65535 (Some vga1_8x16);
     Fill_rect 210 0 30 16 0; Bitmap battery_icon 220 2 (0, 65535) 2].
Proof. reflexivity. Qed.

(** C6: each region is decided by its own comparison.  A candidate equal
    to the cached value issues no call for the region and leaves its
    cache entry as it was; a candidate that differs issues the calls of
    the region and stores the candidate; the four combinations show that
    neither region's outcome depends on the other's. *)
Theorem C6_render_cache (sb : t) (tft : display) (e : draw_env) :
  let bg := fst (colors e) in
  let fg := snd (colors e) in
  let ts := time_str sb e in
  let bl := batt_level sb e in
  (ts = _last_time_str sb -> bl = _last_batt_level sb ->
   draw sb tft e = ([], sb)) /\
  (ts = _last_time_str sb -> bl <> _last_batt_level sb ->
   draw sb tft e =
     (battery_ops sb tft e bg fg bl, set_last_batt_level sb bl)) /\
  (ts <> _last_time_str sb -> bl = _last_batt_level sb ->
   draw sb tft e = (time_ops sb e bg fg ts, set_last_time_str sb ts)) /\
  (ts <> _last_time_str sb -> bl <> _last_batt_level sb ->
   draw sb tft e =
     ((time_ops sb e bg fg ts ++ battery_ops sb tft e bg fg bl)%list,
      set_last_batt_level (set_last_time_str sb ts) bl)) /\
  time_ops sb e bg fg ts <> [] /\
  battery_ops sb tft e bg fg bl <> [] /\
  _last_time_str (set_last_batt_level sb bl) = _last_time_str sb /\
  _last_batt_level (set_last_time_str sb ts) = _last_batt_level sb /\
  _last_time_str (value (draw sb tft e)) = ts /\
  _last_batt_level (value (draw sb tft e)) = bl.
Proof.
  cbv zeta. rewrite draw_unfold. unfold value. cbn [snd].
  repeat split.
  - intros Ht Hb. apply String.eqb_eq in Ht. apply Z.eqb_eq in Hb.
    rewrite Ht, Hb. reflexivity.
  - intros Ht Hb. apply String.eqb_eq in Ht. apply Z.eqb_neq in Hb.
    rewrite Ht, Hb. reflexivity.
  - intros Ht Hb. apply String.eqb_neq in Ht. apply Z.eqb_eq in Hb.
    rewrite Ht, Hb, app_nil_r. reflexivity.
  - intros Ht Hb. apply String.eqb_neq in Ht. apply Z.eqb_neq in Hb.
    rewrite Ht, Hb. reflexivity.
  - discriminate.
  - discriminate.
  - destruct (String.eqb_spec (time_str sb e) (_last_time_str sb)) as [E | E];
      destruct (batt_level sb e =? _last_batt_level sb);
      (reflexivity || (symmetry; exact E)).
  - destruct (Z.eqb_spec (batt_level sb e) (_last_batt_level sb)) as [E | E];
      destruct (String.eqb (time_str sb e) (_last_time_str sb));
      (reflexivity || (symmetry; exact E)).
Qed.

(** After a first draw, a second draw with the same clock and battery
    issues nothing and keeps the cache. *)
Lemma C6_render_cache_witness :
  let sb1 := value (draw (__init__ 16 false with_battery) tft0 env0) in
  time_str sb1 env0 = _last_time_str sb1 /\
  batt_level sb1 env0 = _last_batt_level sb1 /\
  draw sb1 tft0 env0 = ([], sb1).
Proof.
  cbv zeta. split; [reflexivity | split; [reflexivity |]].
  exact (proj1 (C6_render_cache
                  (value (draw (__init__ 16 false with_battery) tft0 env0))
                  tft0 env0) eq_refl eq_refl).
Defined.

End StatusBarFacts.

(** ** The two loops of [main] *)

Module MainFacts.
Import Py Host IMU Observe Samples.

Lemma trace_bind {A B} (m : io A) (k : A -> io B) :
  trace (bind m k) = (trace m ++ trace (k (value m)))%list.
Proof.
  unfold bind, trace, value. destruct m as [t1 a]. cbn [fst snd].
  destruct (k a) as [t2 b]. reflexivity.
Qed.

Lemma value_bind {A B} (m : io A) (k : A -> io B) :
  value (bind m k) = value (k (value m)).
Proof.
  unfold bind, trace, value. destruct m as [t1 a]. cbn [fst snd].
  destruct (k a) as [t2 b]. reflexivity.
Qed.

Lemma trace_pair {A} (t : list event) (a : A) : trace (t, a) = t.
Proof. reflexivity. Qed.

Lemma value_pair {A} (t : list event) (a : A) : value (t, a) = a.
Proof. reflexivity. Qed.

Lemma draw_display_ops (sb : StatusBar.t) (tft : display)
    (e : StatusBar.draw_env) :
  Forall (fun ev => is_display_op ev = true) (trace (StatusBar.draw sb tft e)).
Proof.
  rewrite StatusBarFacts.draw_unfold. unfold trace. cbn [fst].
  apply Forall_app. split.
  - destruct (String.eqb _ _); [constructor |].
    unfold StatusBar.time_ops.
    destruct (StatusBar.font_vga1_8x16 e); repeat constructor.
  - destruct (Z.eqb _ _); [constructor |].
    unfold StatusBar.battery_ops.
    destruct (StatusBar.batt_level sb e >=? 0);
      destruct (StatusBar._battery_icon sb);
      destruct (StatusBar.bitmap_raises e);
      destruct (StatusBar.font_vga1_8x8 e); repeat constructor.
Qed.

(** The height never changes, so [y_offset] stays four below the bar. *)
Lemma draw_height (sb : StatusBar.t) (tft : display) (e : StatusBar.draw_env) :
  StatusBar.height (value (StatusBar.draw sb tft e)) = StatusBar.height sb.
Proof.
  rewrite StatusBarFacts.draw_unfold. unfold value. cbn [snd].
  destruct (String.eqb _ _); destruct (Z.eqb _ _); reflexivity.
Qed.

Lemma display_op_not_key_poll (ev : event) :
  is_display_op ev = true -> is_key_poll ev = false.
Proof. destruct ev; simpl; congruence. Qed.

Lemma display_op_not_bus_op (ev : event) :
  is_display_op ev = true -> is_bus_op ev = false.
Proof. destruct ev; simpl; congruence. Qed.

Section Loops.

Variable display : Host.display.
Variables bg_color fg_color highlight_color : Z.
Variable fmt_f : nat -> nat -> R -> string.

Local Abbreviation render :=
  (IMU.render display bg_color fg_color highlight_color fmt_f).
Local Abbreviation poll_iteration :=
  (IMU.poll_iteration display bg_color fg_color highlight_color fmt_f).
Local Abbreviation main_start :=
  (IMU.main_start display bg_color fg_color highlight_color).
Local Abbreviation step :=
  (IMU.step display bg_color fg_color highlight_color fmt_f).
Local Abbreviation run :=
  (IMU.run display bg_color fg_color highlight_color fmt_f).
Local Abbreviation main :=
  (IMU.main display bg_color fg_color highlight_color fmt_f).

(** What is painted when the sample is missing. *)
Lemma render_read_error (sb : StatusBar.t) (y_offset : Z)
    (e : StatusBar.draw_env) :
  render sb y_offset None e =
    ((Fill_rect 0 (StatusBar.height sb) (width display)
        (height display - StatusBar.height sb) bg_color ::
      trace (StatusBar.draw sb display e) ++
      [Text "Read error!" 5 y_offset highlight_color (Some vga1_8x16)])%list,
     value (StatusBar.draw sb display e)).
Proof.
  unfold IMU.render, bind, emit, text, ret, trace, value.
  destruct (StatusBar.draw sb display e) as [t sb']. reflexivity.
Qed.

Lemma render_display_ops (sb : StatusBar.t) (y_offset : Z)
    (data : option (scaled_sample R)) (e : StatusBar.draw_env) :
  Forall (fun ev => is_display_op ev = true) (trace (render sb y_offset data e)).
Proof.
  destruct data as [[[[[[ax ay] az] gx] gy] gz] |].
  - unfold IMU.render.
    destruct (compute_pitch_roll ax ay az) as [pitch roll].
    pose proof (draw_display_ops sb display e) as Hd.
    unfold bind, emit, text, ret, trace in *.
    destruct (StatusBar.draw sb display e) as [t sb']. cbn [fst] in *.
    constructor; [reflexivity |].
    apply Forall_app. split; [exact Hd | repeat constructor].
  - rewrite render_read_error. unfold trace. cbn [fst].
    constructor; [reflexivity |].
    apply Forall_app. split; [apply draw_display_ops | repeat constructor].
Qed.

(** One turn of the read-out loop when the exit key is pressed. *)
Lemma poll_iteration_exit (mpu : MPUReader) (sb : StatusBar.t) (y_offset : Z)
    (i : tick) :
  mem_string "G0" (keys i) = true ->
  poll_iteration mpu sb y_offset i = ([Get_new_keys; Machine_reset], Halted).
Proof.
  intros Hk. unfold IMU.poll_iteration.
  rewrite Hk. reflexivity.
Qed.

(** One turn of the read-out loop otherwise: the read, the painting, the
    presentation and the pause, in this order. *)
Lemma poll_iteration_turn (mpu : MPUReader) (sb : StatusBar.t) (y_offset : Z)
    (i : tick) :
  mem_string "G0" (keys i) = false ->
  let r := read_scaled_data (F := R) mpu (read i) in
  let painted := render sb y_offset (snd (value r)) (bar_env i) in
  poll_iteration mpu sb y_offset i =
    ((Get_new_keys :: trace r ++ trace painted ++ [Show; Sleep_ms 100])%list,
     Polling (fst (value r)) (value painted) y_offset).
Proof.
  intros Hk. cbv zeta. unfold IMU.poll_iteration.
  rewrite Hk.
  unfold bind, emit, ret, trace, value.
  destruct (read_scaled_data mpu (read i)) as [t1 r]. cbn [fst snd].
  destruct (render sb y_offset (snd r) (bar_env i)) as [t2 sb']. cbn [fst snd].
  reflexivity.
Qed.

(** Without the exit key the read-out loop stays in the read-out loop,
    whatever the reads do. *)
Lemma run_polling (ticks : list tick) :
  no_exit ticks ->
  forall (mpu : MPUReader) (sb : StatusBar.t) (y_offset : Z),
    is_polling (value (run (Polling mpu sb y_offset) ticks)) = true.
Proof.
  induction 1 as [| i rest Hi _ IH]; intros mpu sb y_offset; [reflexivity |].
  cbn [IMU.run]. rewrite value_bind. cbn [IMU.step].
  rewrite (poll_iteration_turn _ _ _ _ Hi). rewrite value_pair.
  apply IH.
Qed.

(** C7: a register read that raises does not end the read-out loop.  The
    scaled reader answers [None]; the turn paints "Read error!", presents
    the screen, pauses and leaves [main] in the read-out loop with the
    same reader; and over any number of turns without the exit key the
    loop is still running, whichever reads fail. *)
Theorem C7_read_failure (mpu : MPUReader) (sb : StatusBar.t) (y_offset : Z)
    (i : tick) (e : exn) :
  mem_string "G0" (keys i) = false ->
  read i = inl e ->
  value (read_scaled_data (F := R) mpu (read i)) = (mpu, None) /\
  poll_iteration mpu sb y_offset i =
    ((Get_new_keys ::
      I2C_readfrom_mem_into (address mpu) 0x3B (List.length (_buffer mpu)) ::
      Fill_rect 0 (StatusBar.height sb) (width display)
        (height display - StatusBar.height sb) bg_color ::
      trace (StatusBar.draw sb display (bar_env i)) ++
      [Text "Read error!" 5 y_offset highlight_color (Some vga1_8x16);
       Show; Sleep_ms 100])%list,
     Polling mpu (value (StatusBar.draw sb display (bar_env i))) y_offset) /\
  (forall ticks : list tick,
      no_exit ticks ->
      is_polling (value (run (Polling mpu sb y_offset) (i :: ticks))) = true).
Proof.
  intros Hk Hread.
  assert (Hscaled : read_scaled_data (F := R) mpu (read i) =
            ([I2C_readfrom_mem_into (address mpu) 0x3B
                (List.length (_buffer mpu))], (mpu, None))).
  { rewrite Hread. reflexivity. }
  split; [rewrite Hscaled; reflexivity |]. split.
  - rewrite (poll_iteration_turn _ _ _ _ Hk). rewrite Hscaled.
    rewrite !value_pair, trace_pair. cbn [fst snd].
    rewrite render_read_error, trace_pair, value_pair.
    do 2 f_equal. rewrite <- !app_comm_cons, <- app_assoc. reflexivity.
  - intros ticks Hticks. apply run_polling. constructor; assumption.
Qed.

Lemma wait_iteration_exit (i : tick) :
  mem_string "G0" (keys i) = true ->
  wait_iteration i = ([Get_new_keys; Machine_reset], Halted).
Proof. intros Hk. unfold wait_iteration. rewrite Hk. reflexivity. Qed.

Lemma wait_iteration_turn (i : tick) :
  mem_string "G0" (keys i) = false ->
  wait_iteration i = ([Get_new_keys; Sleep_ms 50], DeviceUnavailable).
Proof. intros Hk. unfold wait_iteration. rewrite Hk. reflexivity. Qed.

Lemma run_halted (ticks : list tick) : run Halted ticks = ([], Halted).
Proof.
  induction ticks as [| i rest IH]; [reflexivity |].
  cbn [IMU.run IMU.step]. unfold bind, ret. rewrite IH. reflexivity.
Qed.

(** The waiting loop: polls and pauses until the exit key, then the
    reset. *)
Lemma run_waiting (ticks : list tick) :
  Forall (fun ev => ev = Get_new_keys \/ ev = Sleep_ms 50 \/ ev = Machine_reset)
         (trace (run DeviceUnavailable ticks)) /\
  (value (run DeviceUnavailable ticks) = DeviceUnavailable \/
   value (run DeviceUnavailable ticks) = Halted).
Proof.
  induction ticks as [| i rest [IHt IHv]]; [split; [constructor | left; reflexivity] |].
  cbn [IMU.run IMU.step]. rewrite trace_bind, value_bind.
  destruct (mem_string "G0" (keys i)) eqn:Hk.
  - rewrite (wait_iteration_exit _ Hk). rewrite !value_pair, trace_pair.
    rewrite run_halted, trace_pair, value_pair. split.
    + rewrite app_nil_r.
      apply Forall_cons; [auto |]. apply Forall_cons; [auto |]. apply Forall_nil.
    + right. reflexivity.
  - rewrite (wait_iteration_turn _ Hk). rewrite !value_pair, trace_pair.
    split; [| exact IHv].
    apply Forall_app. split; [| exact IHt].
    apply Forall_cons; [auto |]. apply Forall_cons; [auto |]. apply Forall_nil.
Qed.

Lemma run_waiting_no_exit (ticks : list tick) :
  no_exit ticks ->
  run DeviceUnavailable ticks =
    (flat_map (fun _ => [Get_new_keys; Sleep_ms 50]) ticks, DeviceUnavailable).
Proof.
  induction 1 as [| i rest Hi _ IH]; [reflexivity |].
  cbn [IMU.run IMU.step flat_map]. rewrite (wait_iteration_turn _ Hi).
  unfold bind. rewrite IH. reflexivity.
Qed.

(** Start-up when discovery fails: the error screen, then the waiting
    loop. *)
Lemma main_start_failure (found : StatusBar.imports) (i2c : bus)
    (e1 e2 : StatusBar.draw_env) :
  fst (value (try_init_imu i2c)) = None ->
  value (main_start found i2c e1 e2) = DeviceUnavailable /\
  Forall (fun ev => is_bus_read ev = false)
         (trace (main_start found i2c e1 e2)).
Proof.
  intros Hnone.
  destruct (DiscoveryFacts.try_init_imu_failure i2c Hnone) as [msg Hmsg].
  pose proof (DiscoveryFacts.try_init_imu_no_read i2c) as Hnr.
  unfold IMU.main_start.
  pose proof (draw_display_ops (StatusBar.__init__ 16 false found) display e1)
    as Hd1.
  destruct (StatusBar.draw (StatusBar.__init__ 16 false found) display e1)
    as [t1 sb1] eqn:E1.
  pose proof (draw_display_ops sb1 display e2) as Hd2.
  destruct (StatusBar.draw sb1 display e2) as [t2 sb2] eqn:E2.
  destruct (try_init_imu i2c) as [t [mpu error]].
  unfold value in Hmsg. cbn [snd] in Hmsg. injection Hmsg as -> ->.
  unfold trace in Hnr, Hd1, Hd2. cbn [fst] in Hnr, Hd1, Hd2.
  unfold bind, emit, text, ret, value, trace. rewrite E2. cbn [fst snd].
  split; [reflexivity |].
  assert (Hdisp : forall l, Forall (fun ev => is_display_op ev = true) l ->
            Forall (fun ev => is_bus_read ev = false) l).
  { intros l Hl. eapply Forall_impl; [| exact Hl].
    intros ev Hev. destruct ev; simpl in *; congruence. }
  repeat first
    [ apply Forall_cons; [reflexivity |]
    | apply Forall_app; split
    | apply Forall_nil
    | apply Hdisp; assumption
    | assumption ].
Qed.

(** C8: when discovery fails, [main] paints the error screen and enters
    the waiting loop; from there every turn polls the keys and pauses
    50 ms, nothing is asked of the bus (no register read, no new scan or
    wake-up), and the loop is left only by the reset that the exit key
    triggers. *)
Theorem C8_device_unavailable (found : StatusBar.imports) (i2c : bus)
    (e1 e2 : StatusBar.draw_env) (ticks : list tick) :
  fst (value (try_init_imu i2c)) = None ->
  value (main_start found i2c e1 e2) = DeviceUnavailable /\
  Forall (fun ev => ev = Get_new_keys \/ ev = Sleep_ms 50 \/ ev = Machine_reset)
         (trace (run DeviceUnavailable ticks)) /\
  Forall (fun ev => is_bus_op ev = false)
         (trace (run DeviceUnavailable ticks)) /\
  (value (run DeviceUnavailable ticks) = DeviceUnavailable \/
   value (run DeviceUnavailable ticks) = Halted) /\
  (no_exit ticks ->
   run DeviceUnavailable ticks =
     (flat_map (fun _ => [Get_new_keys; Sleep_ms 50]) ticks,
      DeviceUnavailable)) /\
  trace (main found i2c e1 e2 ticks) =
    (trace (main_start found i2c e1 e2) ++
     trace (run DeviceUnavailable ticks))%list /\
  Forall (fun ev => is_bus_read ev = false)
         (trace (main found i2c e1 e2 ticks)).
Proof.
  intros Hnone.
  destruct (main_start_failure found i2c e1 e2 Hnone) as [Hv Hnr].
  destruct (run_waiting ticks) as [Ht Hp].
  assert (Hmain : trace (main found i2c e1 e2 ticks) =
            (trace (main_start found i2c e1 e2) ++
             trace (run DeviceUnavailable ticks))%list).
  { unfold IMU.main. rewrite trace_bind, Hv. reflexivity. }
  split; [exact Hv |]. split; [exact Ht |]. split.
  { eapply Forall_impl; [| exact Ht].
    intros ev [-> | [-> | ->]]; reflexivity. }
  split; [exact Hp |]. split; [apply run_waiting_no_exit |].
  split; [exact Hmain |].
  rewrite Hmain. apply Forall_app. split; [exact Hnr |].
  eapply Forall_impl; [| exact Ht].
  intros ev [-> | [-> | ->]]; reflexivity.
Qed.

(** C9: every turn of the read-out loop begins with the one poll of the
    keys; with the exit key the turn is that poll and the reset, and
    nothing is read or painted; without it the register read comes next,
    then the painting, the presentation and the pause, and none of them
    polls the keys again. *)
Theorem C9_exit_check_first (mpu : MPUReader) (sb : StatusBar.t)
    (y_offset : Z) (i : tick) :
  exists rest : list event,
    trace (poll_iteration mpu sb y_offset i) = Get_new_keys :: rest /\
    Forall (fun ev => is_key_poll ev = false) rest /\
    List.length (filter is_key_poll (trace (poll_iteration mpu sb y_offset i)))
      = 1%nat /\
    if mem_string "G0" (keys i) then
      rest = [Machine_reset] /\
      value (poll_iteration mpu sb y_offset i) = Halted
    else
      exists painted : list event,
        rest =
          (I2C_readfrom_mem_into (address mpu) 0x3B
             (List.length (_buffer mpu)) ::
           painted ++ [Show; Sleep_ms 100])%list /\
        Forall (fun ev => is_display_op ev = true) painted /\
        is_polling (value (poll_iteration mpu sb y_offset i)) = true.
Proof.
  assert (Hcount : forall rest,
             Forall (fun ev => is_key_poll ev = false) rest ->
             List.length (filter is_key_poll (Get_new_keys :: rest)) = 1%nat).
  { intros rest Hrest. cbn [filter is_key_poll length]. f_equal.
    induction Hrest as [| ev l Hev _ IH]; [reflexivity |].
    cbn [filter]. rewrite Hev. exact IH. }
  destruct (mem_string "G0" (keys i)) eqn:Hk.
  - rewrite (poll_iteration_exit _ _ _ _ Hk).
    exists [Machine_reset]. rewrite trace_pair, value_pair.
    repeat split. repeat constructor.
  - rewrite (poll_iteration_turn _ _ _ _ Hk). rewrite ScaledFacts.read_scaled_trace.
    rewrite trace_pair, value_pair.
    set (painted := trace (render sb y_offset
                             (snd (value (read_scaled_data mpu (read i))))
                             (bar_env i))).
    assert (Hp : Forall (fun ev => is_display_op ev = true) painted)
      by apply render_display_ops.
    assert (Hrest : Forall (fun ev => is_key_poll ev = false)
              (trace (read_raw_data mpu (read i)) ++
               painted ++ [Show; Sleep_ms 100])%list).
    { apply Forall_app. split; [repeat constructor |].
      apply Forall_app. split; [| repeat constructor].
      eapply Forall_impl; [| exact Hp]. apply display_op_not_key_poll. }
    eexists. split; [reflexivity |]. split; [exact Hrest |].
    split; [apply Hcount, Hrest |].
    exists painted. repeat split. exact Hp.
Qed.

End Loops.

Lemma C7_read_failure_witness :
  mem_string "G0" (keys tick_read_fails) = false /\
  read tick_read_fails = inl "[Errno 116] ETIMEDOUT" /\
  IMU.poll_iteration tft0 2113 65535 63488 fmt_stub sample_reader
    (StatusBar.__init__ 16 false no_battery) 20 tick_read_fails =
    ([Get_new_keys;
      I2C_readfrom_mem_into 0x68 0x3B 14;
      Fill_rect 0 16 240 119 2113;
      Fill_rect 0 0 60 16 0;
      Text "09:05" 2 0 65535 (Some vga1_8x16);
      Text "Read error!" 5 20 63488 (Some vga1_8x16);
      Show;
      Sleep_ms 100],
     Polling sample_reader
       (StatusBar.set_last_time_str
          (StatusBar.__init__ 16 false no_battery) "09:05")
       20).
Proof.
  split; [reflexivity | split; [reflexivity |]].
  exact (proj1 (proj2
           (C7_read_failure tft0 2113 65535 63488 fmt_stub sample_reader
              (StatusBar.__init__ 16 false no_battery) 20 tick_read_fails
              "[Errno 116] ETIMEDOUT" eq_refl eq_refl))).
Defined.

Lemma C8_device_unavailable_witness :
  fst (value (try_init_imu bus_empty)) = None /\
  value (IMU.main_start tft0 2113 65535 63488 no_battery bus_empty env0 env0)
    = DeviceUnavailable /\
  IMU.run tft0 2113 65535 63488 fmt_stub DeviceUnavailable
    [tick_read_fails; tick_read_fails] =
    ([Get_new_keys; Sleep_ms 50; Get_new_keys; Sleep_ms 50], DeviceUnavailable).
Proof.
  split; [reflexivity |].
  pose proof (C8_device_unavailable tft0 2113 65535 63488 fmt_stub
                no_battery bus_empty env0 env0
                [tick_read_fails; tick_read_fails] eq_refl) as H.
  split; [exact (proj1 H) |].
  refine (proj1 (proj2 (proj2 (proj2 (proj2 H)))) _).
  repeat constructor.
Defined.

(** The start-up screen, the failed discovery and the error screen on a
    bus without devices. *)
Example main_start_no_devices :
  IMU.main_start tft0 2113 65535 63488 no_battery bus_empty env0 env0 =
    ([Fill 2113;
      Fill_rect 0 0 60 16 0;
      Text "09:05" 2 0 65535 (Some vga1_8x16);
      Text "Initializing IMU..." 5 20 65535 (Some vga1_8x16);
      Show;
      I2C_new 0 2 1 100000 8000;
      I2C_scan;
      Fill 2113;
      Text "IMU Error:" 5 20 63488 (Some vga1_8x16);
      Text "No I2C devices found" 5 40 65535 (Some vga1_8x16);
      Text "Press G0 to exit" 5 100 65535 (Some vga1_8x16);
      Show],
     DeviceUnavailable).
Proof. reflexivity. Qed.

End MainFacts.

(** ** Further properties of the codec and the readers *)

Module ReaderProps.
Import Py Host IMU Observe Samples.

Lemma decode_block_long (buf : list Z) :
  (14 <= List.length buf)%nat ->
  decode_block buf =
    inr (_bytes_to_int16 (nth 0 buf 0) (nth 1 buf 0),
         _bytes_to_int16 (nth 2 buf 0) (nth 3 buf 0),
         _bytes_to_int16 (nth 4 buf 0) (nth 5 buf 0),
         _bytes_to_int16 (nth 8 buf 0) (nth 9 buf 0),
         _bytes_to_int16 (nth 10 buf 0) (nth 11 buf 0),
         _bytes_to_int16 (nth 12 buf 0) (nth 13 buf 0)).
Proof.
  intros Hlen. unfold decode_block.
  repeat (rewrite CodecFacts.getitem_nth by lia; unfold rbind at 1).
  reflexivity.
Qed.

Lemma byte_nth (buf : list Z) (i : nat) :
  Forall (fun b => 0 <= b < 256) buf -> 0 <= nth i buf 0 < 256.
Proof.
  intros Hb. destruct (Nat.lt_ge_cases i (List.length buf)) as [Hi | Hi].
  - rewrite Forall_forall in Hb. apply Hb, nth_In, Hi.
  - rewrite nth_overflow by assumption. lia.
Qed.

(** X1: on bytes the decoded value is a signed 16-bit integer, and it is
    negative exactly when the top bit of the high byte is set. *)
Theorem bytes_to_int16_int16 (h l : Z) :
  0 <= h < 256 -> 0 <= l < 256 ->
  -32768 <= _bytes_to_int16 h l <= 32767 /\
  (_bytes_to_int16 h l < 0 <-> 128 <= h).
Proof.
  intros Hh Hl. unfold _bytes_to_int16. cbv zeta.
  rewrite CodecFacts.combine_bytes by assumption.
  destruct (Z.geb_spec (256 * h + l) 0x8000); lia.
Qed.

Lemma bytes_to_int16_int16_witness :
  (0 <= 0xC0 < 256) /\ (0 <= 0x00 < 256) /\
  _bytes_to_int16 0xC0 0x00 = -16384 /\
  -32768 <= _bytes_to_int16 0xC0 0x00 <= 32767.
Proof.
  split; [lia | split; [lia | split; [reflexivity |]]].
  exact (proj1 (bytes_to_int16_int16 0xC0 0x00 ltac:(lia) ltac:(lia))).
Defined.

(** X2: the codec loses nothing: the two bytes are recovered from the
    decoded value as the high and low byte of its 16-bit pattern, so two
    different byte pairs never decode to the same value. *)
Theorem bytes_to_int16_injective (h l h' l' : Z) :
  0 <= h < 256 -> 0 <= l < 256 -> 0 <= h' < 256 -> 0 <= l' < 256 ->
  (_bytes_to_int16 h l mod 65536) / 256 = h /\
  (_bytes_to_int16 h l mod 65536) mod 256 = l /\
  (_bytes_to_int16 h l = _bytes_to_int16 h' l' -> h = h' /\ l = l').
Proof.
  intros Hh Hl Hh' Hl'.
  destruct (CodecFacts.bytes_to_int16_roundtrip h l Hh Hl) as [E1 E2].
  destruct (CodecFacts.bytes_to_int16_roundtrip h' l' Hh' Hl') as [E1' E2'].
  cbv zeta in *. repeat split; try assumption.
  - rewrite <- E1, <- E1', H. reflexivity.
  - rewrite <- E2, <- E2', H. reflexivity.
Qed.

Lemma bytes_to_int16_injective_witness :
  (0 <= 0xFF < 256) /\
  (_bytes_to_int16 0xFF 0xFE mod 65536) / 256 = 0xFF /\
  (_bytes_to_int16 0xFF 0xFE mod 65536) mod 256 = 0xFE.
Proof.
  split; [lia |].
  pose proof (bytes_to_int16_injective 0xFF 0xFE 0 0
                ltac:(lia) ltac:(lia) ltac:(lia) ltac:(lia)) as H.
  exact (conj (proj1 H) (proj1 (proj2 H))).
Defined.


(** X4: with the register block made of bytes, every scaled value stays
    within the sensor range the scale constants stand for: the
    accelerations within [-2, 2) g and the rotation rates within 251
    degrees per second. *)
Theorem scaled_sample_bounds (m m' : MPUReader) (buf : list Z)
    (ax ay az gx gy gz : R) :
  Forall (fun b => 0 <= b < 256) buf ->
  value (read_scaled_data (F := R) m (inr buf)) =
    (m', Some (ax, ay, az, gx, gy, gz)) ->
  (-2 <= ax < 2 /\ -2 <= ay < 2 /\ -2 <= az < 2 /\
   -251 < gx < 251 /\ -251 < gy < 251 /\ -251 < gz < 251)%R.
Proof.
  intros Hbytes Hval.
  destruct (Nat.leb_spec 14 (List.length buf)) as [Hlen | Hlen].
  - revert Hval.
    unfold read_scaled_data, read_raw_data, read_raw_body, value.
    cbn [rbind snd]. rewrite (decode_block_long buf Hlen). cbn [rbind snd].
    intros E. injection E as _ <- <- <- <- <- <-.
    assert (Hr : forall i j : nat,
               (-32768 <= IZR (_bytes_to_int16 (nth i buf 0%Z) (nth j buf 0%Z))
                <= 32767)%R).
    { intros i j.
      destruct (CodecFacts.bytes_to_int16_range _ _
                  (byte_nth buf i Hbytes) (byte_nth buf j Hbytes)) as [Hlo Hhi].
      split; apply IZR_le; assumption. }
    cbn [of_int fdiv PyFloat_R].
    pose proof (Hr 0%nat 1%nat). pose proof (Hr 2%nat 3%nat).
    pose proof (Hr 4%nat 5%nat). pose proof (Hr 8%nat 9%nat).
    pose proof (Hr 10%nat 11%nat). pose proof (Hr 12%nat 13%nat).
    unfold Rdiv. repeat split; lra.
  - exfalso. revert Hval.
    destruct (CodecFacts.decode_block_short buf Hlen) as [e He].
    unfold read_scaled_data, read_raw_data, read_raw_body, value.
    cbn [rbind snd]. rewrite He. discriminate.
Qed.

Lemma scaled_sample_bounds_witness :
  Forall (fun b => 0 <= b < 256) sample_block /\
  (-2 <= IZR 32767 / IZR 16384 < 2)%R /\
  (-251 < IZR (-16384) / IZR 131 < 251)%R.
Proof.
  assert (Hb : Forall (fun b => 0 <= b < 256) sample_block)
    by (repeat constructor; lia).
  split; [exact Hb |].
  pose proof (scaled_sample_bounds sample_reader _ sample_block
                _ _ _ _ _ _ Hb eq_refl) as H.
  exact (conj (proj1 H) (proj2 (proj2 (proj2 (proj2 (proj2 H)))))).
Defined.

End ReaderProps.

(** ** Further properties of the orientation estimator *)

Module OrientationProps.
Import Py Host IMU Observe Samples.

Local Open Scope R_scope.






















End OrientationProps.

(** ** Further properties of device discovery *)

Module DiscoveryProps.
Import Py Host IMU Observe Samples.
Import DiscoveryFacts.

Lemma attempts_found (i2c : bus) (devices addrs : list Z) (a : Z) :
  find (ready i2c devices) addrs = Some a ->
  exists before : list event,
    attempts i2c devices addrs = (before ++ wake_ok a)%list.
Proof.
  induction addrs as [| addr rest IH]; [discriminate |].
  cbn [find attempts]. unfold ready at 1.
  destruct (mem_int addr devices); cbn [andb]; [| exact IH].
  destruct (accepts i2c addr).
  - intros E. injection E as <-. exists []. reflexivity.
  - intros E. destruct (IH E) as [before ->].
    exists (wake_failed addr ++ before)%list. now rewrite app_assoc.
Qed.

(** X8: a handle is returned only for a candidate address that the scan
    enumerated and whose wake-up write succeeded, on a bus that opened;
    it comes without an error text, its buffer is 14 zero bytes, the
    handshake of that address is the last thing discovery does, and
    0x69 is chosen only when 0x68 was not ready. *)
Theorem try_init_imu_success (i2c : bus) (mpu : MPUReader) :
  fst (value (try_init_imu i2c)) = Some mpu ->
  bus_new i2c = None /\
  In (address mpu) MPU_ADDRESSES /\
  In (address mpu) (enumerated i2c) /\
  bus_wake i2c (address mpu) = None /\
  _buffer mpu = repeat 0 14 /\
  snd (value (try_init_imu i2c)) = None /\
  (address mpu = 0x69 -> ready i2c (enumerated i2c) 0x68 = false) /\
  exists before : list event,
    trace (try_init_imu i2c) = (before ++ wake_ok (address mpu))%list.
Proof.
  unfold enumerated.
  destruct (bus_new i2c) as [e |] eqn:Hnew.
  { unfold try_init_imu. rewrite Hnew. discriminate. }
  destruct (bus_scan i2c) as [e | [| d devices]] eqn:Hscan;
    try (unfold try_init_imu; rewrite Hnew, Hscan; discriminate).
  rewrite (try_init_imu_scanned _ _ _ Hnew Hscan).
  rewrite !MainFacts.value_pair, MainFacts.trace_pair.
  destruct (find (ready i2c (d :: devices)) MPU_ADDRESSES) as [a |] eqn:Hfind;
    [| discriminate].
  cbn [fst snd]. intros E. injection E as <-. cbn [handle address _buffer].
  pose proof (find_some _ _ Hfind) as [Hin Hready].
  unfold ready in Hready. apply andb_prop in Hready.
  destruct Hready as [Hmem Hacc]. apply PyFacts.mem_int_In in Hmem.
  split; [reflexivity |]. split; [exact Hin |]. split; [exact Hmem |].
  split.
  { unfold accepts in Hacc. destruct (bus_wake i2c a); [discriminate | reflexivity]. }
  split; [reflexivity |]. split; [reflexivity |]. split.
  - intros ->. cbn [MPU_ADDRESSES find] in Hfind.
    destruct (ready i2c (d :: devices) 104); [discriminate | reflexivity].
  - destruct (attempts_found _ _ _ _ Hfind) as [before ->].
    exists (opened :: I2C_scan :: before). reflexivity.
Qed.

Lemma try_init_imu_success_witness :
  fst (value (try_init_imu bus_second_candidate)) = Some (handle 0x69) /\
  In 0x69 (enumerated bus_second_candidate) /\
  bus_wake bus_second_candidate 0x69 = None.
Proof.
  split; [reflexivity |].
  pose proof (try_init_imu_success bus_second_candidate (handle 0x69) eq_refl)
    as H.
  exact (conj (proj1 (proj2 (proj2 H))) (proj1 (proj2 (proj2 (proj2 H))))).
Defined.

Lemma attempts_calls_ok (i2c : bus) (devices addrs : list Z) :
  incl addrs MPU_ADDRESSES ->
  Forall (discovery_call_ok devices) (attempts i2c devices addrs).
Proof.
  induction addrs as [| addr rest IH]; intros Hincl; cbn [attempts];
    [constructor |].
  assert (Hrest : incl rest MPU_ADDRESSES)
    by (intros x Hx; apply Hincl; right; exact Hx).
  destruct (mem_int addr devices) eqn:Hmem; [| exact (IH Hrest)].
  apply PyFacts.mem_int_In in Hmem.
  assert (Hw : discovery_call_ok devices (I2C_writeto_mem addr 0x6B [0])).
  { cbn. repeat split; [apply Hincl; left; reflexivity | exact Hmem]. }
  destruct (accepts i2c addr).
  - constructor; [exact Hw |]. constructor; [reflexivity | constructor].
  - constructor; [exact Hw | exact (IH Hrest)].
Qed.

Lemma wake_failed_app (addr : Z) (l : list event) :
  (wake_failed addr ++ l)%list = I2C_writeto_mem addr 0x6B [0] :: l.
Proof. reflexivity. Qed.

Lemma attempts_writes_other (i2c : bus) (devices addrs : list Z) (a : Z) :
  ~ In a addrs -> filter (writes_to a) (attempts i2c devices addrs) = [].
Proof.
  induction addrs as [| addr rest IH]; intros Hn; cbn [attempts];
    [reflexivity |].
  assert (Hne : (a =? addr) = false)
    by (apply Z.eqb_neq; intros ->; apply Hn; left; reflexivity).
  assert (Hrest : ~ In a rest) by (intros Hx; apply Hn; right; exact Hx).
  destruct (mem_int addr devices); [| exact (IH Hrest)].
  destruct (accepts i2c addr); rewrite ?wake_failed_app;
    cbn [wake_ok filter writes_to]; rewrite Hne;
    [reflexivity | exact (IH Hrest)].
Qed.

Lemma attempts_writes_once (i2c : bus) (devices addrs : list Z) (a : Z) :
  NoDup addrs ->
  (List.length (filter (writes_to a) (attempts i2c devices addrs)) <= 1)%nat.
Proof.
  induction addrs as [| addr rest IH]; intros Hnd; cbn [attempts];
    [cbn; lia |].
  inversion Hnd as [| ? ? Hnotin Hnd']; subst.
  destruct (mem_int addr devices); [| exact (IH Hnd')].
  destruct (Z.eqb_spec a addr) as [-> | Hne].
  - destruct (accepts i2c addr); rewrite ?wake_failed_app;
      cbn [wake_ok filter writes_to]; rewrite Z.eqb_refl;
      cbn [List.length]; [lia |].
    rewrite attempts_writes_other by assumption. cbn. lia.
  - apply Z.eqb_neq in Hne.
    destruct (accepts i2c addr); rewrite ?wake_failed_app;
      cbn [wake_ok filter writes_to]; rewrite Hne;
      [cbn; lia | exact (IH Hnd')].
Qed.

(** X9: discovery never issues anything but the constructor call, the
    scan, wake-up writes and settle delays; every write is the zero byte
    to register 0x6B of a candidate address that the scan enumerated,
    and no address is written more than once. *)
Theorem try_init_imu_calls (i2c : bus) (a : Z) :
  Forall (discovery_call_ok (enumerated i2c)) (trace (try_init_imu i2c)) /\
  (List.length (filter (writes_to a) (trace (try_init_imu i2c))) <= 1)%nat.
Proof.
  unfold enumerated, try_init_imu.
  destruct (bus_new i2c) as [e |].
  { rewrite MainFacts.trace_pair. split; [repeat constructor | cbn; lia]. }
  destruct (bus_scan i2c) as [e | [| d devices]].
  { rewrite MainFacts.trace_pair. split; [repeat constructor | cbn; lia]. }
  { rewrite MainFacts.trace_pair. split; [repeat constructor | cbn; lia]. }
  rewrite try_addresses_spec.
  match goal with
  | |- context [trace ?t] =>
      replace (trace t)
        with (opened :: I2C_scan :: attempts i2c (d :: devices) MPU_ADDRESSES)
  end.
  2:{ destruct (option_map handle
                  (find (ready i2c (d :: devices)) MPU_ADDRESSES));
      reflexivity. }
  split.
  - constructor; [reflexivity |]. constructor; [exact I |].
    apply attempts_calls_ok. intros x Hx. exact Hx.
  - cbn [filter writes_to]. apply attempts_writes_once.
    repeat constructor; cbn; intuition discriminate.
Qed.

(** X10: the error text tells the stage that failed.  A text is
    returned only without a handle, and it is the constructor's
    exception after "I2C init failed: " when the bus did not open (and
    then nothing else was asked of the bus), the scan's exception after
    "I2C scan failed: " when the scan raised, "No I2C devices found"
    when the scan was empty, and otherwise the "No MPU found" text,
    which means that no candidate address was both enumerated and
    woken. *)
Theorem try_init_imu_error_cause (i2c : bus) (msg : string) :
  snd (value (try_init_imu i2c)) = Some msg ->
  fst (value (try_init_imu i2c)) = None /\
  ((exists e : exn,
       bus_new i2c = Some e /\ msg = "I2C init failed: " ++ e /\
       trace (try_init_imu i2c) = [opened]) \/
   (exists e : exn,
       bus_new i2c = None /\ bus_scan i2c = inl e /\
       msg = "I2C scan failed: " ++ e /\
       trace (try_init_imu i2c) = [opened; I2C_scan]) \/
   (bus_new i2c = None /\ bus_scan i2c = inr [] /\
    msg = "No I2C devices found" /\
    trace (try_init_imu i2c) = [opened; I2C_scan]) \/
   (exists devices : list Z,
       bus_new i2c = None /\ bus_scan i2c = inr devices /\ devices <> [] /\
       msg = "No MPU found. Devices: " ++ device_list devices /\
       forall a : Z, In a MPU_ADDRESSES -> ready i2c devices a = false)).
Proof.
  destruct (bus_new i2c) as [e |] eqn:Hnew.
  { unfold try_init_imu. rewrite Hnew.
    rewrite !MainFacts.value_pair, MainFacts.trace_pair. cbn [fst snd].
    intros E. injection E as <-. split; [reflexivity |].
    left. exists e. repeat split. }
  destruct (bus_scan i2c) as [e | [| d devices]] eqn:Hscan.
  { unfold try_init_imu. rewrite Hnew, Hscan.
    rewrite !MainFacts.value_pair, MainFacts.trace_pair. cbn [fst snd].
    intros E. injection E as <-. split; [reflexivity |].
    right. left. exists e. repeat split. }
  { unfold try_init_imu. rewrite Hnew, Hscan.
    rewrite !MainFacts.value_pair, MainFacts.trace_pair. cbn [fst snd].
    intros E. injection E as <-. split; [reflexivity |].
    right. right. left. repeat split. }
  rewrite (try_init_imu_scanned _ _ _ Hnew Hscan).
  rewrite !MainFacts.value_pair.
  destruct (find (ready i2c (d :: devices)) MPU_ADDRESSES) as [a |] eqn:Hfind;
    [discriminate |].
  cbn [fst snd]. intros E. injection E as <-. split; [reflexivity |].
  right. right. right. exists (d :: devices).
  repeat split; [discriminate |].
  intros a Ha. exact (find_none _ _ Hfind a Ha).
Qed.

Lemma try_init_imu_error_cause_witness :
  snd (value (try_init_imu bus_refusing)) =
    Some "No MPU found. Devices: 0x68" /\
  fst (value (try_init_imu bus_refusing)) = None.
Proof.
  split; [reflexivity |].
  exact (proj1 (try_init_imu_error_cause bus_refusing
                  "No MPU found. Devices: 0x68" eq_refl)).
Defined.

End DiscoveryProps.

(** ** Two-character renderings *)

Module FormatProps.
Import Py.

Lemma below_in_seq (n : nat) (z : Z) :
  0 <= z < Z.of_nat n -> In (Z.to_nat z) (seq 0 n).
Proof. intros Hz. apply in_seq. lia. Qed.

Lemma two_chars (s : string) :
  String.length s = 2%nat ->
  exists c1 c2 : ascii, s = String c1 (String c2 "").
Proof.
  destruct s as [| c1 [| c2 [| c3 s]]]; try discriminate.
  intros _. exists c1, c2. reflexivity.
Qed.

(** [f"{z:02d}"] has two characters for [z] from 0 to 99. *)
Lemma fmt_02d_two (z : Z) :
  0 <= z < 100 -> exists c1 c2 : ascii, fmt_02d z = String c1 (String c2 "").
Proof.
  intros Hz. apply two_chars.
  assert (Hall : forallb (fun n => (String.length (fmt_02d (Z.of_nat n)) =? 2)%nat)
                         (seq 0 100) = true) by (vm_compute; reflexivity).
  rewrite forallb_forall in Hall.
  specialize (Hall (Z.to_nat z) (below_in_seq 100 z Hz)).
  rewrite Z2Nat.id in Hall by lia. apply Nat.eqb_eq, Hall.
Qed.

(** On that range different numbers have different renderings. *)
Lemma fmt_02d_inj (a b : Z) :
  0 <= a < 100 -> 0 <= b < 100 -> fmt_02d a = fmt_02d b -> a = b.
Proof.
  intros Ha Hb E.
  assert (Hall : forallb (fun i => forallb (fun j =>
                    implb (String.eqb (fmt_02d (Z.of_nat i)) (fmt_02d (Z.of_nat j)))
                          (i =? j)%nat) (seq 0 100)) (seq 0 100) = true)
    by (vm_compute; reflexivity).
  rewrite forallb_forall in Hall.
  specialize (Hall (Z.to_nat a) (below_in_seq 100 a Ha)).
  rewrite forallb_forall in Hall.
  specialize (Hall (Z.to_nat b) (below_in_seq 100 b Hb)).
  rewrite !Z2Nat.id in Hall by lia. rewrite E, String.eqb_refl in Hall.
  cbn [implb] in Hall. apply Nat.eqb_eq in Hall. lia.
Qed.

(** [f"{z:02X}"] has two characters for a byte. *)
Lemma fmt_02X_byte (z : Z) :
  0 <= z < 256 -> exists c1 c2 : ascii, fmt_02X z = String c1 (String c2 "").
Proof.
  intros Hz. apply two_chars.
  assert (Hall : forallb (fun n => (String.length (fmt_02X (Z.of_nat n)) =? 2)%nat)
                         (seq 0 256) = true) by (vm_compute; reflexivity).
  rewrite forallb_forall in Hall.
  specialize (Hall (Z.to_nat z) (below_in_seq 256 z Hz)).
  rewrite Z2Nat.id in Hall by lia. apply Nat.eqb_eq, Hall.
Qed.

End FormatProps.

(** ** Further properties of the status bar *)

Module StatusBarProps.
Import Py Host Observe Samples.
Import StatusBar.

(** The status bar after a draw: the cache holds the two candidates and
    nothing else has changed. *)
Lemma draw_value (sb : t) (tft : display) (e : draw_env) :
  value (draw sb tft e) =
    {| height := height sb;
       use_12h := use_12h sb;
       _last_time_str := time_str sb e;
       _last_batt_level := batt_level sb e;
       _battery := _battery sb;
       _battery_icon := _battery_icon sb |}.
Proof.
  rewrite StatusBarFacts.draw_unfold. unfold value. cbn [snd].
  destruct (String.eqb_spec (time_str sb e) (_last_time_str sb)) as [Et | Et];
    destruct (Z.eqb_spec (batt_level sb e) (_last_batt_level sb)) as [Eb | Eb];
    try rewrite Et; try rewrite Eb; destruct sb; reflexivity.
Qed.

(** X12: drawing is idempotent.  A second draw that sees the same clock
    and battery as the first issues no call and leaves the status bar as
    the first draw left it; and a draw never changes the height, the
    hour format, the battery reader or the icon. *)
Theorem draw_idempotent (sb : t) (tft : display) (e : draw_env) :
  draw (value (draw sb tft e)) tft e = ([], value (draw sb tft e)) /\
  height (value (draw sb tft e)) = height sb /\
  use_12h (value (draw sb tft e)) = use_12h sb /\
  _battery (value (draw sb tft e)) = _battery sb /\
  _battery_icon (value (draw sb tft e)) = _battery_icon sb.
Proof.
  rewrite draw_value. split; [| repeat split].
  rewrite StatusBarFacts.draw_unfold.
  cbn [_last_time_str _last_batt_level].
  change (time_str {| height := height sb; use_12h := use_12h sb;
                      _last_time_str := time_str sb e;
                      _last_batt_level := batt_level sb e;
                      _battery := _battery sb;
                      _battery_icon := _battery_icon sb |} e)
    with (time_str sb e).
  change (batt_level {| height := height sb; use_12h := use_12h sb;
                        _last_time_str := time_str sb e;
                        _last_batt_level := batt_level sb e;
                        _battery := _battery sb;
                        _battery_icon := _battery_icon sb |} e)
    with (batt_level sb e).
  rewrite String.eqb_refl, Z.eqb_refl. reflexivity.
Qed.

(** X13: a draw issues at most five calls, all of them on the display
    and inside the bar: each clear is a strip of the bar's height at the
    top edge over the time area or the battery area, each text starts at
    the left margin of one of the two areas, and the icon is asked for
    with a level that is not negative. *)
Theorem draw_calls (sb : t) (tft : display) (e : draw_env) :
  Forall (bar_call_ok sb tft) (trace (draw sb tft e)) /\
  (List.length (trace (draw sb tft e)) <= 5)%nat.
Proof.
  rewrite StatusBarFacts.draw_unfold. rewrite MainFacts.trace_pair.
  assert (Ht : Forall (bar_call_ok sb tft)
                 (time_ops sb e (fst (colors e)) (snd (colors e)) (time_str sb e))
               /\ List.length (time_ops sb e (fst (colors e)) (snd (colors e))
                                (time_str sb e)) = 2%nat).
  { unfold time_ops. split; [| reflexivity].
    constructor; [cbn; intuition lia |].
    constructor; [| constructor].
    destruct (font_vga1_8x16 e); cbn; intuition lia. }
  assert (Hb : Forall (bar_call_ok sb tft)
                 (battery_ops sb tft e (fst (colors e)) (snd (colors e))
                    (batt_level sb e))
               /\ (List.length (battery_ops sb tft e (fst (colors e))
                                 (snd (colors e)) (batt_level sb e)) <= 3)%nat).
  { unfold battery_ops.
    destruct (Z.geb_spec (batt_level sb e) 0) as [Hge | Hlt];
      destruct (_battery_icon sb);
      destruct (bitmap_raises e);
      destruct (font_vga1_8x8 e);
      (split; [repeat constructor; cbn; intuition lia | cbn; lia]). }
  destruct Ht as [Ht Hlt]. destruct Hb as [Hb Hlb].
  split.
  - apply Forall_app. split.
    + destruct (String.eqb _ _); [constructor | exact Ht].
    + destruct (Z.eqb _ _); [constructor | exact Hb].
  - rewrite length_app.
    destruct (String.eqb _ _); destruct (Z.eqb _ _); cbn [List.length]; lia.
Qed.

(** The hour that is rendered. *)
Lemma time_str_fields (sb : t) (e : draw_env) (hour minute : Z) :
  localtime e = inr (hour, minute) ->
  time_str sb e =
    fmt_02d (if use_12h sb
             then if hour =? 0 then 12
                  else if hour >? 12 then hour - 12 else hour
             else hour) ++ ":" ++ fmt_02d minute.
Proof. unfold time_str. intros ->. reflexivity. Qed.

(** X14: with the hour and the minute between 0 and 99, in either hour
    format, and also when the clock raises, the time text has exactly
    five characters with the colon in the middle. *)
Theorem time_str_shape (sb : t) (e : draw_env) :
  match localtime e with
  | inr (hour, minute) => 0 <= hour < 100 /\ 0 <= minute < 100
  | inl _ => True
  end ->
  String.length (time_str sb e) = 5%nat /\
  String.get 2 (time_str sb e) = Some ":"%char.
Proof.
  destruct (localtime e) as [x | [hour minute]] eqn:Hl.
  - intros _. unfold time_str. rewrite Hl. split; reflexivity.
  - intros [Hh Hm]. rewrite (time_str_fields sb e hour minute Hl).
    set (shown := if use_12h sb
                  then if hour =? 0 then 12
                       else if hour >? 12 then hour - 12 else hour
                  else hour).
    assert (Hs : 0 <= shown < 100).
    { unfold shown. destruct (use_12h sb); [| lia].
      destruct (Z.eqb_spec hour 0); [lia |].
      destruct (Z.gtb_spec hour 12); lia. }
    destruct (FormatProps.fmt_02d_two shown Hs) as (a & b & ->).
    destruct (FormatProps.fmt_02d_two minute Hm) as (c & d & ->).
    split; reflexivity.
Qed.

Lemma time_str_shape_witness :
  (0 <= 9 < 100 /\ 0 <= 5 < 100) /\
  String.length (time_str (__init__ 16 false no_battery) env0) = 5%nat.
Proof.
  split; [lia |].
  exact (proj1 (time_str_shape (__init__ 16 false no_battery) env0
                  ltac:(cbn; lia))).
Defined.

(** X15: in the 12-hour format the hour shown is between 1 and 12, and
    as nothing marks the half of the day, an hour of the morning and the
    same hour twelve hours later give the same text. *)
Theorem time_str_12h (sb : t) (e e' : draw_env) (hour minute : Z) :
  use_12h sb = true ->
  0 <= hour < 12 ->
  localtime e = inr (hour, minute) ->
  localtime e' = inr (hour + 12, minute) ->
  time_str sb e = time_str sb e' /\
  exists shown : Z,
    1 <= shown <= 12 /\
    time_str sb e = fmt_02d shown ++ ":" ++ fmt_02d minute.
Proof.
  intros H12 Hh Hl Hl'.
  rewrite (time_str_fields sb e _ _ Hl), (time_str_fields sb e' _ _ Hl').
  rewrite H12.
  destruct (Z.eqb_spec hour 0) as [-> | Hnz].
  - cbn. split; [reflexivity |]. exists 12. split; [lia | reflexivity].
  - destruct (Z.eqb_spec (hour + 12) 0); [lia |].
    destruct (Z.gtb_spec hour 12); [lia |].
    destruct (Z.gtb_spec (hour + 12) 12); [| lia].
    replace (hour + 12 - 12) with hour by lia.
    split; [reflexivity |]. exists hour. split; [lia | reflexivity].
Qed.

Lemma time_str_12h_witness :
  use_12h (__init__ 16 true no_battery) = true /\ 0 <= 0 < 12 /\
  time_str (__init__ 16 true no_battery) (env_at 0 30) = "12:30" /\
  time_str (__init__ 16 true no_battery) (env_at 0 30) =
  time_str (__init__ 16 true no_battery) (env_at 12 30).
Proof.
  split; [reflexivity | split; [lia | split; [reflexivity |]]].
  exact (proj1 (time_str_12h (__init__ 16 true no_battery)
                  (env_at 0 30) (env_at 12 30) 0 30
                  eq_refl ltac:(lia) eq_refl eq_refl)).
Defined.

(** X16: in the 24-hour format the text determines the hour and the
    minute, so whenever either of them changes the candidate differs
    from the cached text and the time region is painted again. *)
Theorem time_str_24h_injective (sb : t) (tft : display) (e e' : draw_env)
    (hour minute hour' minute' : Z) :
  use_12h sb = false ->
  0 <= hour < 100 -> 0 <= minute < 100 ->
  0 <= hour' < 100 -> 0 <= minute' < 100 ->
  localtime e = inr (hour, minute) ->
  localtime e' = inr (hour', minute') ->
  (time_str sb e = time_str sb e' -> hour = hour' /\ minute = minute') /\
  ((hour, minute) <> (hour', minute') ->
   paints_time (trace (draw (value (draw sb tft e)) tft e'))).
Proof.
  intros H24 Hh Hm Hh' Hm' Hl Hl'.
  assert (Hinj : time_str sb e = time_str sb e' ->
                 hour = hour' /\ minute = minute').
  { rewrite (time_str_fields sb e _ _ Hl), (time_str_fields sb e' _ _ Hl').
    rewrite H24.
    destruct (FormatProps.fmt_02d_two hour Hh) as (a & b & Ea).
    destruct (FormatProps.fmt_02d_two hour' Hh') as (a' & b' & Ea').
    rewrite Ea, Ea'. cbn [append]. intros E.
    injection E as -> -> Em.
    split.
    - apply FormatProps.fmt_02d_inj; [assumption | assumption | congruence].
    - apply FormatProps.fmt_02d_inj; assumption. }
  split; [exact Hinj |].
  intros Hne.
  rewrite StatusBarFacts.draw_unfold, MainFacts.trace_pair.
  rewrite draw_value. cbn [_last_time_str].
  change (time_str {| height := height sb; use_12h := use_12h sb;
                      _last_time_str := time_str sb e;
                      _last_batt_level := batt_level sb e;
                      _battery := _battery sb;
                      _battery_icon := _battery_icon sb |} e')
    with (time_str sb e').
  destruct (String.eqb_spec (time_str sb e') (time_str sb e)) as [E | E].
  - exfalso. apply Hne. symmetry in E. destruct (Hinj E) as [-> ->].
    reflexivity.
  - eexists _, _. apply in_or_app. left. left. reflexivity.
Qed.

Lemma time_str_24h_injective_witness :
  use_12h (__init__ 16 false no_battery) = false /\ (9, 5) <> (9, 6) /\
  paints_time
    (trace (draw (value (draw (__init__ 16 false no_battery) tft0 (env_at 9 5)))
                 tft0 (env_at 9 6))).
Proof.
  split; [reflexivity | split; [discriminate |]].
  refine (proj2 (time_str_24h_injective (__init__ 16 false no_battery) tft0
                   (env_at 9 5) (env_at 9 6) 9 5 9 6 eq_refl ltac:(lia)
                   ltac:(lia) ltac:(lia) ltac:(lia) eq_refl eq_refl) _).
  discriminate.
Defined.

End StatusBarProps.

(** ** Further properties of the loops of [main] *)

Module LoopProps.
Import Py Host IMU Observe Samples.
Import MainFacts.

Lemma filter_none {A} (f : A -> bool) (l : list A) :
  Forall (fun x => f x = false) l -> filter f l = [].
Proof.
  induction 1 as [| x l Hx _ IH]; [reflexivity |].
  cbn [filter]. rewrite Hx. exact IH.
Qed.

Lemma draw_paint_ops (sb : StatusBar.t) (tft : display)
    (e : StatusBar.draw_env) :
  Forall (fun ev => is_paint ev = true /\ is_read_error ev = false)
         (trace (StatusBar.draw sb tft e)).
Proof.
  rewrite StatusBarFacts.draw_unfold. rewrite trace_pair.
  apply Forall_app. split.
  - destruct (String.eqb _ _); [constructor |].
    unfold StatusBar.time_ops.
    destruct (StatusBar.font_vga1_8x16 e); repeat constructor.
    cbn. apply andb_false_r.
  - destruct (Z.eqb _ _); [constructor |].
    unfold StatusBar.battery_ops.
    destruct (StatusBar.batt_level sb e >=? 0);
      destruct (StatusBar._battery_icon sb);
      destruct (StatusBar.bitmap_raises e);
      destruct (StatusBar.font_vga1_8x8 e); repeat constructor.
Qed.

Lemma read_scaled_address (m : MPUReader) (rd : result (list Z)) :
  address (fst (value (read_scaled_data (F := R) m rd))) = address m.
Proof.
  unfold read_scaled_data, read_raw_data, read_raw_body, value.
  destruct rd as [e | buf]; cbn [rbind snd fst]; [reflexivity |].
  destruct (decode_block buf) as [e | [[[[[ax ay] az] gx] gy] gz]];
    reflexivity.
Qed.

(** The scaled reader answers [None] exactly on the reads that fail. *)
Lemma read_scaled_none (m : MPUReader) (i : tick) :
  snd (value (read_scaled_data (F := R) m (read i))) = None <->
  read_fails i = true.
Proof.
  unfold read_fails. destruct (read i) as [e | buf]; [split; reflexivity |].
  destruct (Nat.ltb_spec (List.length buf) 14) as [Hlen | Hlen].
  - split; [reflexivity | intros _].
    rewrite ScaledFacts.read_scaled_failure; [reflexivity |].
    destruct (CodecFacts.decode_block_short buf Hlen) as [e He].
    unfold read_raw_data, read_raw_body, value. cbn [rbind snd].
    rewrite He. reflexivity.
  - split; [| discriminate].
    unfold read_scaled_data, read_raw_data, read_raw_body, value.
    cbn [rbind snd]. rewrite (ReaderProps.decode_block_long buf Hlen).
    discriminate.
Qed.

Section Loops.

Variable display : Host.display.
Variables bg_color fg_color highlight_color : Z.
Variable fmt_f : nat -> nat -> R -> string.

Local Abbreviation render :=
  (IMU.render display bg_color fg_color highlight_color fmt_f).
Local Abbreviation poll_iteration :=
  (IMU.poll_iteration display bg_color fg_color highlight_color fmt_f).
Local Abbreviation main_start :=
  (IMU.main_start display bg_color fg_color highlight_color).
Local Abbreviation step :=
  (IMU.step display bg_color fg_color highlight_color fmt_f).
Local Abbreviation run :=
  (IMU.run display bg_color fg_color highlight_color fmt_f).
Local Abbreviation main :=
  (IMU.main display bg_color fg_color highlight_color fmt_f).

(** The loops compose: running over two lists of ticks in a row is
    running over their concatenation. *)
Lemma run_app (p : phase) (ticks1 ticks2 : list tick) :
  run p (ticks1 ++ ticks2) =
    bind (run p ticks1) (fun q => run q ticks2).
Proof.
  revert p. induction ticks1 as [| i rest IH]; intros p.
  - rewrite app_nil_l. cbn [IMU.run]. unfold bind, ret.
    destruct (run p ticks2) as [t q]. reflexivity.
  - rewrite <- app_comm_cons. cbn [IMU.run]. unfold bind at 1 3.
    destruct (step p i) as [t1 q]. rewrite IH.
    unfold bind. destruct (run q rest) as [t2 r].
    destruct (run r ticks2) as [t3 u]. now rewrite app_assoc.
Qed.

Lemma run_running (ticks : list tick) :
  no_exit ticks ->
  forall p : phase,
    is_running p = true -> is_running (value (run p ticks)) = true.
Proof.
  induction 1 as [| i rest Hi _ IH]; intros p Hp; [exact Hp |].
  cbn [IMU.run]. rewrite value_bind. apply IH.
  destruct p as [| mpu sb y | |]; try discriminate; cbn [IMU.step].
  - rewrite (wait_iteration_turn _ Hi). reflexivity.
  - rewrite (poll_iteration_turn _ _ _ _ _ _ _ _ _ Hi). reflexivity.
Qed.

Lemma step_exit (p : phase) (i : tick) :
  is_running p = true -> mem_string "G0" (keys i) = true ->
  step p i = ([Get_new_keys; Machine_reset], Halted).
Proof.
  intros Hp Hk. destruct p as [| mpu sb y | |]; try discriminate;
    cbn [IMU.step].
  - apply wait_iteration_exit, Hk.
  - apply poll_iteration_exit, Hk.
Qed.

(** X17: in either loop the exit key ends the program at the next poll
    of the keys: that turn is the poll and the reset, without a read or
    a paint, and nothing is issued for any later tick. *)
Theorem run_exit (p : phase) (before after : list tick) (i : tick) :
  is_running p = true ->
  no_exit before ->
  mem_string "G0" (keys i) = true ->
  run p (before ++ i :: after) =
    ((trace (run p before) ++ [Get_new_keys; Machine_reset])%list, Halted).
Proof.
  intros Hp Hb Hk. rewrite run_app.
  pose proof (run_running before Hb p Hp) as Hq.
  unfold bind, trace, value in *.
  destruct (run p before) as [t q]. cbn [fst snd] in *.
  cbn [IMU.run]. rewrite (step_exit q i Hq Hk).
  unfold bind. rewrite run_halted. now rewrite app_nil_r.
Qed.

(** What is painted for a sample. *)
Lemma render_sample (sb : StatusBar.t) (y_offset : Z)
    (ax ay az gx gy gz : R) (e : StatusBar.draw_env) :
  render sb y_offset (Some (ax, ay, az, gx, gy, gz)) e =
    ((Fill_rect 0 (StatusBar.height sb) (width display)
        (height display - StatusBar.height sb) bg_color ::
      trace (StatusBar.draw sb display e) ++
      [Text "Accelerometer (g):" 5 y_offset highlight_color (Some vga1_8x16);
       Text (" X: " ++ fmt_f 6 2 ax) 5 (y_offset + 16) fg_color
         (Some vga1_8x16);
       Text (" Y: " ++ fmt_f 6 2 ay) 5 (y_offset + 16 + 16) fg_color
         (Some vga1_8x16);
       Text (" Z: " ++ fmt_f 6 2 az) 5 (y_offset + 16 + 16 + 16) fg_color
         (Some vga1_8x16);
       Text "Gyro (deg/s):" 130 y_offset highlight_color (Some vga1_8x16);
       Text ("X:" ++ fmt_f 6 1 gx) 130 (y_offset + 16) fg_color
         (Some vga1_8x16);
       Text ("Y:" ++ fmt_f 6 1 gy) 130 (y_offset + 16 + 16) fg_color
         (Some vga1_8x16);
       Text ("Z:" ++ fmt_f 6 1 gz) 130 (y_offset + 16 + 16 + 16) fg_color
         (Some vga1_8x16);
       Text ("Pitch: " ++ fmt_f 6 1 (fst (compute_pitch_roll ax ay az))
               ++ " deg")
         5 (height display - 16 * 2 - 2) highlight_color (Some vga1_8x16);
       Text ("Roll:  " ++ fmt_f 6 1 (snd (compute_pitch_roll ax ay az))
               ++ " deg")
         5 (height display - 16 * 2 - 2 + 16) highlight_color
         (Some vga1_8x16)])%list,
     value (StatusBar.draw sb display e)).
Proof.
  unfold IMU.render.
  destruct (compute_pitch_roll ax ay az) as [pitch roll]. cbn [fst snd].
  unfold bind, emit, text, ret, trace, value.
  destruct (StatusBar.draw sb display e) as [t sb']. reflexivity.
Qed.

Lemma render_value (sb : StatusBar.t) (y_offset : Z)
    (data : option (scaled_sample R)) (e : StatusBar.draw_env) :
  value (render sb y_offset data e) = value (StatusBar.draw sb display e).
Proof.
  destruct data as [[[[[[ax ay] az] gx] gy] gz] |].
  - rewrite render_sample. reflexivity.
  - rewrite render_read_error. reflexivity.
Qed.

Lemma render_paint (sb : StatusBar.t) (y_offset : Z)
    (data : option (scaled_sample R)) (e : StatusBar.draw_env) :
  Forall (fun ev => is_paint ev = true) (trace (render sb y_offset data e)).
Proof.
  assert (Hd : Forall (fun ev => is_paint ev = true)
                 (trace (StatusBar.draw sb display e))).
  { eapply Forall_impl; [| apply draw_paint_ops]. intros ev [H _]. exact H. }
  destruct data as [[[[[[ax ay] az] gx] gy] gz] |].
  - rewrite render_sample, trace_pair.
    constructor; [reflexivity |].
    apply Forall_app. split; [exact Hd | repeat constructor].
  - rewrite render_read_error, trace_pair.
    constructor; [reflexivity |].
    apply Forall_app. split; [exact Hd | repeat constructor].
Qed.

(** The indicator is painted once for a missing sample and never for a
    sample. *)
Lemma render_indicator (sb : StatusBar.t) (y_offset : Z)
    (data : option (scaled_sample R)) (e : StatusBar.draw_env) :
  List.length (filter is_read_error (trace (render sb y_offset data e))) =
    match data with
    | Some _ => 0%nat
    | None => 1%nat
    end.
Proof.
  assert (Hd : filter is_read_error (trace (StatusBar.draw sb display e)) = []).
  { apply filter_none. eapply Forall_impl; [| apply draw_paint_ops].
    intros ev [_ H]. exact H. }
  destruct data as [[[[[[ax ay] az] gx] gy] gz] |].
  - rewrite render_sample, trace_pair.
    cbn [filter is_read_error]. rewrite filter_app, Hd. reflexivity.
  - rewrite render_read_error, trace_pair.
    cbn [filter is_read_error]. rewrite filter_app, Hd. reflexivity.
Qed.

(** The calls of one turn of the read-out loop without the exit key. *)
Lemma poll_turn_trace (mpu : MPUReader) (sb : StatusBar.t) (y_offset : Z)
    (i : tick) :
  mem_string "G0" (keys i) = false ->
  trace (poll_iteration mpu sb y_offset i) =
    Get_new_keys ::
    I2C_readfrom_mem_into (address mpu) 0x3B (List.length (_buffer mpu)) ::
    (trace (render sb y_offset
              (snd (value (read_scaled_data (F := R) mpu (read i))))
              (bar_env i)) ++ [Show; Sleep_ms 100])%list.
Proof.
  intros Hk. rewrite (poll_iteration_turn _ _ _ _ _ _ _ _ _ Hk), trace_pair.
  rewrite ScaledFacts.read_scaled_trace. reflexivity.
Qed.

Lemma poll_turn_value (mpu : MPUReader) (sb : StatusBar.t) (y_offset : Z)
    (i : tick) :
  mem_string "G0" (keys i) = false ->
  value (poll_iteration mpu sb y_offset i) =
    Polling (fst (value (read_scaled_data (F := R) mpu (read i))))
            (value (StatusBar.draw sb display (bar_env i))) y_offset.
Proof.
  intros Hk. rewrite (poll_iteration_turn _ _ _ _ _ _ _ _ _ Hk), value_pair.
  rewrite render_value. reflexivity.
Qed.

Lemma list_sum_cons (n : nat) (l : list nat) :
  list_sum (n :: l) = (n + list_sum l)%nat.
Proof. reflexivity. Qed.

(** Counting the calls of a kind over a run from the counts of its
    turns. *)
Lemma run_count (f : event -> bool) (g : tick -> nat) :
  (forall mpu sb y_offset i,
      mem_string "G0" (keys i) = false ->
      List.length (filter f (trace (poll_iteration mpu sb y_offset i))) = g i) ->
  forall ticks : list tick,
    no_exit ticks ->
    forall mpu sb y_offset,
      List.length (filter f (trace (run (Polling mpu sb y_offset) ticks))) =
        list_sum (map g ticks).
Proof.
  intros Hturn. induction 1 as [| i rest Hi _ IH]; intros mpu sb y_offset;
    [reflexivity |].
  cbn [IMU.run IMU.step]. rewrite map_cons, list_sum_cons, trace_bind.
  rewrite filter_app, length_app, (Hturn _ _ _ _ Hi).
  rewrite (poll_turn_value _ _ _ _ Hi), IH. reflexivity.
Qed.

Lemma list_sum_ones {A} (l : list A) :
  list_sum (map (fun _ => 1%nat) l) = List.length l.
Proof.
  induction l as [| x l IH]; [reflexivity |].
  rewrite map_cons, list_sum_cons, IH. reflexivity.
Qed.

Lemma list_sum_filter {A} (f : A -> bool) (l : list A) :
  list_sum (map (fun x => if f x then 1%nat else 0%nat) l) =
    List.length (filter f l).
Proof.
  induction l as [| x l IH]; [reflexivity |].
  rewrite map_cons, list_sum_cons, IH. cbn [filter].
  destruct (f x); cbn [List.length]; lia.
Qed.

Lemma turn_count_one (f : event -> bool) (mpu : MPUReader)
    (sb : StatusBar.t) (y_offset : Z) (i : tick) :
  (forall ev, is_paint ev = true -> f ev = false) ->
  f (Sleep_ms 100) = false ->
  (if f Get_new_keys then 1 else 0) +
  (if f (I2C_readfrom_mem_into (address mpu) 0x3B (List.length (_buffer mpu)))
   then 1 else 0) +
  (if f Show then 1 else 0) = 1 ->
  mem_string "G0" (keys i) = false ->
  List.length (filter f (trace (poll_iteration mpu sb y_offset i))) = 1%nat.
Proof.
  intros Hpaint Hsleep Hone Hk. rewrite (poll_turn_trace _ _ _ _ Hk).
  cbn [filter]. rewrite filter_app.
  rewrite (filter_none f (trace (render _ _ _ _))).
  2:{ eapply Forall_impl; [| apply render_paint]. exact Hpaint. }
  cbn [filter app]. rewrite Hsleep.
  destruct (f Get_new_keys); destruct (f (I2C_readfrom_mem_into _ _ _));
    destruct (f Show); cbn in *; lia.
Qed.

(** X18: each turn of the read-out loop without the exit key polls the
    keys once, asks the bus for exactly one thing, the register read,
    and presents the screen once; so over any such run the numbers of
    key polls, of bus operations, of register reads and of
    presentations all equal the number of turns. *)
Theorem run_polling_counts (mpu : MPUReader) (sb : StatusBar.t)
    (y_offset : Z) (ticks : list tick) :
  no_exit ticks ->
  List.length (filter is_key_poll
                 (trace (run (Polling mpu sb y_offset) ticks))) =
    List.length ticks /\
  List.length (filter is_bus_op
                 (trace (run (Polling mpu sb y_offset) ticks))) =
    List.length ticks /\
  List.length (filter is_bus_read
                 (trace (run (Polling mpu sb y_offset) ticks))) =
    List.length ticks /\
  List.length (filter is_show
                 (trace (run (Polling mpu sb y_offset) ticks))) =
    List.length ticks.
Proof.
  intros Hn.
  assert (Hcount : forall f : event -> bool,
             (forall ev, is_paint ev = true -> f ev = false) ->
             f (Sleep_ms 100) = false ->
             (forall a r n,
                 (if f Get_new_keys then 1 else 0) +
                 (if f (I2C_readfrom_mem_into a r n) then 1 else 0) +
                 (if f Show then 1 else 0) = 1) ->
             List.length (filter f (trace (run (Polling mpu sb y_offset) ticks)))
             = List.length ticks).
  { intros f Hp Hs Hone.
    rewrite (run_count f (fun _ => 1%nat)); [apply list_sum_ones | | exact Hn].
    intros m b y i Hi. apply turn_count_one; auto. }
  repeat split; apply Hcount; try reflexivity;
    intros ev; destruct ev; cbn; congruence.
Qed.

(** X20: over a run of the read-out loop without the exit key, the
    "Read error!" indicator is painted exactly once for each turn whose
    read fails, and never in a turn that has a sample. *)
Theorem run_polling_indicators (mpu : MPUReader) (sb : StatusBar.t)
    (y_offset : Z) (ticks : list tick) :
  no_exit ticks ->
  List.length (filter is_read_error
                 (trace (run (Polling mpu sb y_offset) ticks))) =
    List.length (filter read_fails ticks).
Proof.
  intros Hn.
  rewrite (run_count is_read_error
             (fun i => if read_fails i then 1%nat else 0%nat));
    [apply list_sum_filter | | exact Hn].
  intros m b y i Hi. rewrite (poll_turn_trace _ _ _ _ Hi).
  cbn [filter is_read_error]. rewrite filter_app, length_app.
  rewrite render_indicator. cbn [filter is_read_error List.length].
  destruct (read_fails i) eqn:Hf.
  - apply (read_scaled_none m) in Hf. rewrite Hf. reflexivity.
  - destruct (snd (value (read_scaled_data m (read i)))) eqn:Hs;
      [reflexivity |].
    apply (read_scaled_none m) in Hs. congruence.
Qed.

(** Through the read-out loop the reader keeps its address and the
    status bar its height, [y_offset] stays, and the only thing asked of
    the bus is the 0x3B register read at that address. *)
Lemma run_polling_inv (ticks : list tick) :
  forall (mpu : MPUReader) (sb : StatusBar.t) (y_offset : Z),
    Forall (fun ev => is_bus_op ev = true ->
                      exists n : nat,
                        ev = I2C_readfrom_mem_into (address mpu) 0x3B n)
           (trace (run (Polling mpu sb y_offset) ticks)) /\
    (value (run (Polling mpu sb y_offset) ticks) = Halted \/
     exists (mpu' : MPUReader) (sb' : StatusBar.t),
       value (run (Polling mpu sb y_offset) ticks) = Polling mpu' sb' y_offset /\
       address mpu' = address mpu /\
       StatusBar.height sb' = StatusBar.height sb).
Proof.
  induction ticks as [| i rest IH]; intros mpu sb y_offset.
  { split; [constructor |]. right. exists mpu, sb. repeat split. }
  cbn [IMU.run IMU.step]. rewrite trace_bind, value_bind.
  destruct (mem_string "G0" (keys i)) eqn:Hk.
  - rewrite (poll_iteration_exit _ _ _ _ _ _ _ _ _ Hk).
    rewrite trace_pair, !value_pair, run_halted, trace_pair, value_pair.
    split; [| left; reflexivity].
    repeat constructor; discriminate.
  - rewrite (poll_turn_trace _ _ _ _ Hk), (poll_turn_value _ _ _ _ Hk).
    destruct (IH (fst (value (read_scaled_data (F := R) mpu (read i))))
                 (value (StatusBar.draw sb display (bar_env i))) y_offset)
      as [Htr Hv].
    rewrite read_scaled_address in Htr. split.
    + apply Forall_app. split; [| exact Htr].
      constructor; [discriminate |].
      constructor; [intros _; eexists; reflexivity |].
      apply Forall_app. split.
      * eapply Forall_impl; [| apply render_paint].
        intros ev Hp Hb. destruct ev; cbn in *; congruence.
      * repeat constructor; discriminate.
    + destruct Hv as [Hv | (mpu' & sb' & Hv & Ha & Hh)]; [left; exact Hv |].
      right. exists mpu', sb'. split; [exact Hv |].
      rewrite Ha, Hh, read_scaled_address, draw_height. split; reflexivity.
Qed.

(** X19: whatever the reads and the keys, the read-out loop asks nothing
    of the bus but the read of register 0x3B at the address of its
    reader (no scan, no write, no second discovery); and it either has
    been reset or is still the read-out loop with the same address, the
    same text row [y_offset] and the same bar height. *)
Theorem run_polling_bus (mpu : MPUReader) (sb : StatusBar.t) (y_offset : Z)
    (ticks : list tick) :
  Forall (fun ev => is_bus_op ev = true ->
                    exists n : nat,
                      ev = I2C_readfrom_mem_into (address mpu) 0x3B n)
         (trace (run (Polling mpu sb y_offset) ticks)) /\
  (value (run (Polling mpu sb y_offset) ticks) = Halted \/
   exists (mpu' : MPUReader) (sb' : StatusBar.t),
     value (run (Polling mpu sb y_offset) ticks) = Polling mpu' sb' y_offset /\
     address mpu' = address mpu /\
     StatusBar.height sb' = StatusBar.height sb).
Proof. apply run_polling_inv. Qed.

(** Start-up when discovery returns a handle. *)
Lemma main_start_success (found : StatusBar.imports) (i2c : bus)
    (e1 e2 : StatusBar.draw_env) (mpu : MPUReader) :
  fst (value (try_init_imu i2c)) = Some mpu ->
  main_start found i2c e1 e2 =
    ((Fill bg_color ::
      trace (StatusBar.draw (StatusBar.__init__ 16 false found) display e1) ++
      Text "Initializing IMU..." 5 20 fg_color (Some vga1_8x16) ::
      Show :: trace (try_init_imu i2c))%list,
     Polling mpu
       (value (StatusBar.draw (StatusBar.__init__ 16 false found) display e1))
       20).
Proof.
  intros Hsome. unfold IMU.main_start.
  pose proof (draw_height (StatusBar.__init__ 16 false found) display e1) as Hh.
  unfold bind, emit, text, ret, trace, value in *.
  destruct (StatusBar.draw (StatusBar.__init__ 16 false found) display e1)
    as [t1 sb1].
  destruct (try_init_imu i2c) as [t [m error]]. cbn [fst snd] in *.
  subst m. rewrite Hh. cbn [StatusBar.__init__ StatusBar.height].
  rewrite app_nil_r. reflexivity.
Qed.

(** Start-up when discovery fails with the text [msg]. *)
Lemma main_start_error_screen (found : StatusBar.imports) (i2c : bus)
    (e1 e2 : StatusBar.draw_env) (msg : string) :
  value (try_init_imu i2c) = (None, Some msg) ->
  exists before : list event,
    main_start found i2c e1 e2 =
      ((before ++
        [Text "IMU Error:" 5 20 highlight_color (Some vga1_8x16);
         Text (take MAX_ERROR_CHARS msg) 5 40 fg_color (Some vga1_8x16);
         Text "Press G0 to exit" 5 100 fg_color (Some vga1_8x16);
         Show])%list,
       DeviceUnavailable).
Proof.
  intros Hval. unfold IMU.main_start.
  unfold bind, text, emit, ret, trace, value in *.
  destruct (StatusBar.draw (StatusBar.__init__ 16 false found) display e1)
    as [t1 sb1].
  destruct (try_init_imu i2c) as [t [m error]]. cbn [fst snd] in *.
  injection Hval as -> ->.
  destruct (StatusBar.draw sb1 display e2) as [t2 sb2].
  exists (Fill bg_color :: t1 ++
          Text "Initializing IMU..." 5 20 fg_color (Some vga1_8x16) ::
          Show :: t ++ Fill bg_color :: t2)%list.
  f_equal.
  repeat first [ rewrite <- app_assoc | rewrite <- app_comm_cons
               | rewrite app_nil_l | rewrite app_nil_r ].
  reflexivity.
Qed.

(** What discovery guarantees of the handle it returns. *)
Lemma discovered (i2c : bus) (mpu : MPUReader) :
  fst (value (try_init_imu i2c)) = Some mpu ->
  mpu = handle (address mpu) /\
  In (address mpu) MPU_ADDRESSES /\
  In (address mpu) (enumerated i2c) /\
  bus_wake i2c (address mpu) = None.
Proof.
  unfold enumerated.
  destruct (bus_new i2c) as [e |] eqn:Hnew.
  { unfold try_init_imu. rewrite Hnew. discriminate. }
  destruct (bus_scan i2c) as [e | [| d devices]] eqn:Hscan;
    try (unfold try_init_imu; rewrite Hnew, Hscan; discriminate).
  rewrite (DiscoveryFacts.try_init_imu_scanned _ _ _ Hnew Hscan), value_pair.
  destruct (find (ready i2c (d :: devices)) MPU_ADDRESSES) as [a |] eqn:Hfind;
    [| discriminate].
  cbn [fst]. intros E. injection E as <-. cbn [handle address].
  pose proof (find_some _ _ Hfind) as [Hin Hready].
  unfold ready in Hready. apply andb_prop in Hready.
  destruct Hready as [Hmem Hacc]. apply PyFacts.mem_int_In in Hmem.
  repeat split; try assumption.
  unfold accepts in Hacc. destruct (bus_wake i2c a); [discriminate | reflexivity].
Qed.

Lemma main_trace (found : StatusBar.imports) (i2c : bus)
    (e1 e2 : StatusBar.draw_env) (ticks : list tick) :
  trace (main found i2c e1 e2 ticks) =
    (trace (main_start found i2c e1 e2) ++
     trace (run (value (main_start found i2c e1 e2)) ticks))%list.
Proof.
  unfold IMU.main.
  exact (trace_bind (main_start found i2c e1 e2) (fun p => run p ticks)).
Qed.

Lemma main_value (found : StatusBar.imports) (i2c : bus)
    (e1 e2 : StatusBar.draw_env) (ticks : list tick) :
  value (main found i2c e1 e2 ticks) =
    value (run (value (main_start found i2c e1 e2)) ticks).
Proof.
  unfold IMU.main.
  exact (value_bind (main_start found i2c e1 e2) (fun p => run p ticks)).
Qed.

Lemma main_start_no_read (found : StatusBar.imports) (i2c : bus)
    (e1 e2 : StatusBar.draw_env) :
  Forall (fun ev => is_bus_read ev = false)
         (trace (main_start found i2c e1 e2)).
Proof.
  destruct (fst (value (try_init_imu i2c))) as [mpu |] eqn:Hd.
  - rewrite (main_start_success found i2c e1 e2 mpu Hd), trace_pair.
    constructor; [reflexivity |].
    apply Forall_app. split.
    + eapply Forall_impl; [| apply draw_paint_ops].
      intros ev [Hp _]. destruct ev; cbn in *; congruence.
    + constructor; [reflexivity |]. constructor; [reflexivity |].
      apply DiscoveryFacts.try_init_imu_no_read.
  - apply (main_start_failure display bg_color fg_color highlight_color
                  found i2c e1 e2 Hd).
Qed.

(** X21: from start-up through any number of turns, a register read is
    only ever addressed to register 0x3B of the device that discovery
    returned: one of the two candidate addresses, enumerated by the scan
    and woken without error.  Without such a device no register is
    read. *)
Theorem main_reads (found : StatusBar.imports) (i2c : bus)
    (e1 e2 : StatusBar.draw_env) (ticks : list tick) (a r : Z) (n : nat) :
  In (I2C_readfrom_mem_into a r n) (trace (main found i2c e1 e2 ticks)) ->
  r = 0x3B /\
  fst (value (try_init_imu i2c)) = Some (handle a) /\
  In a MPU_ADDRESSES /\
  In a (enumerated i2c) /\
  bus_wake i2c a = None.
Proof.
  rewrite main_trace. intros Hin. apply in_app_or in Hin.
  destruct Hin as [Hin | Hin].
  { pose proof (main_start_no_read found i2c e1 e2) as Hnr.
    rewrite Forall_forall in Hnr. specialize (Hnr _ Hin). discriminate. }
  destruct (fst (value (try_init_imu i2c))) as [mpu |] eqn:Hd.
  - rewrite (main_start_success found i2c e1 e2 mpu Hd), value_pair in Hin.
    destruct (run_polling_inv ticks mpu
                (value (StatusBar.draw (StatusBar.__init__ 16 false found)
                          display e1)) 20) as [Htr _].
    rewrite Forall_forall in Htr. destruct (Htr _ Hin eq_refl) as [n' E].
    injection E as -> -> _.
    destruct (discovered i2c mpu Hd) as (Hh & Hc & He & Hw).
    repeat split; try assumption. rewrite <- Hh. reflexivity.
  - destruct (main_start_failure display bg_color fg_color highlight_color
                  found i2c e1 e2 Hd) as [Hv _].
    rewrite Hv in Hin.
    destruct (run_waiting display bg_color fg_color highlight_color fmt_f ticks)
      as [Hw _].
    rewrite Forall_forall in Hw.
    destruct (Hw _ Hin) as [E | [E | E]]; discriminate.
Qed.

Lemma run_halted_exit (ticks : list tick) :
  forall p : phase,
    is_running p = true ->
    value (run p ticks) = Halted ->
    Exists (fun i => mem_string "G0" (keys i) = true) ticks.
Proof.
  induction ticks as [| i rest IH]; intros p Hp Hv.
  { cbn in Hv. subst p. discriminate. }
  destruct (mem_string "G0" (keys i)) eqn:Hk; [left; exact Hk |].
  right. cbn [IMU.run] in Hv. rewrite value_bind in Hv.
  apply (IH (value (step p i))); [| exact Hv].
  destruct p as [| mpu sb y | |]; try discriminate; cbn [IMU.step].
  - rewrite (wait_iteration_turn _ Hk). reflexivity.
  - rewrite (poll_iteration_turn _ _ _ _ _ _ _ _ _ Hk). reflexivity.
Qed.

(** X22: [main] never ends on an uncaught exception of its own making.
    After any number of turns it is in the waiting loop, and then
    discovery had failed; or in the read-out loop, and then with the
    address discovery returned, the text row 20 and the bar height 16;
    or it has been reset, and then some turn carried the exit key. *)
Theorem main_phase (found : StatusBar.imports) (i2c : bus)
    (e1 e2 : StatusBar.draw_env) (ticks : list tick) :
  match value (main found i2c e1 e2 ticks) with
  | DeviceUnavailable => fst (value (try_init_imu i2c)) = None
  | Polling mpu sb y_offset =>
      fst (value (try_init_imu i2c)) = Some (handle (address mpu)) /\
      y_offset = 20 /\ StatusBar.height sb = 16
  | Halted => Exists (fun i => mem_string "G0" (keys i) = true) ticks
  | Crashed _ => False
  end.
Proof.
  rewrite main_value.
  destruct (fst (value (try_init_imu i2c))) as [mpu |] eqn:Hd.
  - rewrite (main_start_success found i2c e1 e2 mpu Hd), value_pair.
    set (sb1 := value (StatusBar.draw (StatusBar.__init__ 16 false found)
                         display e1)).
    destruct (run_polling_inv ticks mpu sb1 20)
      as [_ [Hv | (mpu' & sb' & Hv & Ha & Hh)]].
    + rewrite Hv. apply (run_halted_exit ticks (Polling mpu sb1 20));
        [reflexivity | exact Hv].
    + rewrite Hv. destruct (discovered i2c mpu Hd) as (Hm & _).
      rewrite Ha, <- Hm. repeat split.
      rewrite Hh. unfold sb1. rewrite draw_height. reflexivity.
  - destruct (main_start_failure display bg_color fg_color highlight_color
                  found i2c e1 e2 Hd) as [Hv _].
    rewrite Hv.
    destruct (run_waiting display bg_color fg_color highlight_color fmt_f ticks)
      as [_ [Hw | Hw]]; rewrite Hw; [reflexivity |].
    apply (run_halted_exit ticks DeviceUnavailable); [reflexivity | exact Hw].
Qed.

Lemma take_length (n : nat) (s : string) :
  (String.length (take n s) <= n)%nat.
Proof.
  unfold take. revert s. induction n as [| n IH]; intros s.
  - destruct s; cbn; lia.
  - destruct s as [| c s]; cbn; [lia |]. specialize (IH s). lia.
Qed.

(** X11: when discovery fails, the error screen shows the first 28
    characters of the error text at column 5, row 40, and never more.
    Of the list of enumerated addresses that ends the "No MPU found"
    text, this leaves the first address, followed by a comma when there
    are others. *)
Theorem error_line (found : StatusBar.imports) (i2c : bus)
    (e1 e2 : StatusBar.draw_env) (msg : string) :
  value (try_init_imu i2c) = (None, Some msg) ->
  In (Text (take 28 msg) 5 40 fg_color (Some vga1_8x16))
     (trace (main_start found i2c e1 e2)) /\
  (String.length (take 28 msg) <= 28)%nat /\
  (forall (d : Z) (rest : list Z),
      0 <= d < 256 ->
      msg = "No MPU found. Devices: " ++ device_list (d :: rest) ->
      take 28 msg =
        "No MPU found. Devices: 0x" ++ fmt_02X d ++
        match rest with
        | [] => ""
        | _ :: _ => ","
        end).
Proof.
  intros Hval. split; [| split].
  - destruct (main_start_error_screen found i2c e1 e2 msg Hval) as [before ->].
    rewrite trace_pair. apply in_or_app. right. right. left. reflexivity.
  - apply take_length.
  - intros d rest Hd ->.
    destruct (FormatProps.fmt_02X_byte d Hd) as (c1 & c2 & E).
    unfold device_list. destruct rest as [| d' rest].
    + cbn [map join]. rewrite E. reflexivity.
    + rewrite !map_cons.
      change (join ", " (("0x" ++ fmt_02X d) :: ("0x" ++ fmt_02X d') ::
                         map (fun d0 => "0x" ++ fmt_02X d0) rest))
        with (("0x" ++ fmt_02X d) ++ ", " ++
              join ", " (("0x" ++ fmt_02X d') ::
                         map (fun d0 => "0x" ++ fmt_02X d0) rest)).
      rewrite E. reflexivity.
Qed.

End Loops.

Lemma error_line_witness :
  value (try_init_imu {| bus_new := None;
                         bus_scan := inr [0x10; 0x20; 0x30];
                         bus_wake := fun _ => None |}) =
    (None, Some "No MPU found. Devices: 0x10, 0x20, 0x30") /\
  In (Text "No MPU found. Devices: 0x10," 5 40 65535 (Some vga1_8x16))
     (trace (IMU.main_start tft0 2113 65535 63488 no_battery
               {| bus_new := None;
                  bus_scan := inr [0x10; 0x20; 0x30];
                  bus_wake := fun _ => None |} env0 env0)).
Proof.
  split; [reflexivity |].
  exact (proj1 (error_line tft0 2113 65535 63488 no_battery
                  {| bus_new := None;
                     bus_scan := inr [0x10; 0x20; 0x30];
                     bus_wake := fun _ => None |} env0 env0
                  "No MPU found. Devices: 0x10, 0x20, 0x30" eq_refl)).
Defined.

Lemma main_reads_witness :
  In (I2C_readfrom_mem_into 0x69 0x3B 14)
     (trace (IMU.main tft0 2113 65535 63488 fmt_stub no_battery
               bus_second_candidate env0 env0 [tick_read_fails])) /\
  fst (value (try_init_imu bus_second_candidate)) = Some (handle 0x69) /\
  bus_wake bus_second_candidate 0x69 = None.
Proof.
  assert (Hin : In (I2C_readfrom_mem_into 0x69 0x3B 14)
                  (trace (IMU.main tft0 2113 65535 63488 fmt_stub no_battery
                            bus_second_candidate env0 env0 [tick_read_fails]))).
  { cbv. repeat first [left; reflexivity | right]. }
  split; [exact Hin |].
  pose proof (main_reads tft0 2113 65535 63488 fmt_stub no_battery
                bus_second_candidate env0 env0 [tick_read_fails]
                0x69 0x3B 14 Hin) as H.
  exact (conj (proj1 (proj2 H)) (proj2 (proj2 (proj2 (proj2 H))))).
Defined.

Lemma run_polling_counts_witness :
  no_exit [tick_read_fails; tick_sample; tick_read_fails] /\
  List.length
    (filter is_bus_read
       (trace (IMU.run tft0 2113 65535 63488 fmt_stub
                 (Polling sample_reader (StatusBar.__init__ 16 false no_battery) 20)
                 [tick_read_fails; tick_sample; tick_read_fails]))) = 3%nat.
Proof.
  assert (Hn : no_exit [tick_read_fails; tick_sample; tick_read_fails])
    by (repeat constructor).
  split; [exact Hn |].
  exact (proj1 (proj2 (proj2
           (run_polling_counts tft0 2113 65535 63488 fmt_stub sample_reader
              (StatusBar.__init__ 16 false no_battery) 20
              [tick_read_fails; tick_sample; tick_read_fails] Hn)))).
Defined.

Lemma run_polling_indicators_witness :
  no_exit [tick_read_fails; tick_sample; tick_read_fails] /\
  List.length
    (filter is_read_error
       (trace (IMU.run tft0 2113 65535 63488 fmt_stub
                 (Polling sample_reader (StatusBar.__init__ 16 false no_battery) 20)
                 [tick_read_fails; tick_sample; tick_read_fails]))) = 2%nat.
Proof.
  assert (Hn : no_exit [tick_read_fails; tick_sample; tick_read_fails])
    by (repeat constructor).
  split; [exact Hn |].
  exact (run_polling_indicators tft0 2113 65535 63488 fmt_stub sample_reader
           (StatusBar.__init__ 16 false no_battery) 20
           [tick_read_fails; tick_sample; tick_read_fails] Hn).
Defined.

Lemma run_exit_witness :
  let quit := {| keys := ["G0"]; read := inr sample_block;
                 bar_env := env0 |} in
  no_exit [tick_read_fails] /\
  mem_string "G0" (keys quit) = true /\
  IMU.run tft0 2113 65535 63488 fmt_stub DeviceUnavailable
    ([tick_read_fails] ++ quit :: [tick_read_fails]) =
    ([Get_new_keys; Sleep_ms 50; Get_new_keys; Machine_reset], Halted).
Proof.
  cbv zeta.
  assert (Hn : no_exit [tick_read_fails]) by (repeat constructor).
  split; [exact Hn | split; [reflexivity |]].
  exact (run_exit tft0 2113 65535 63488 fmt_stub DeviceUnavailable
           [tick_read_fails] [tick_read_fails]
           {| keys := ["G0"]; read := inr sample_block; bar_env := env0 |}
           eq_refl Hn eq_refl).
Defined.

End LoopProps.

(** ** Properties of the clock app *)

Module LiveClockProps.
Import Py Host LiveClock ObserveClock Samples.

Lemma clock_text_nonempty (i : tick) : time_str i <> "".
Proof.
  unfold time_str. destruct (clock i) as [x | [[hour minute] second]].
  - discriminate.
  - apply PyFacts.append_nonempty_l, StatusBarFacts.fmt_02d_nonempty.
Qed.

Lemma time_str_eight (i : tick) :
  clock_ok i -> String.length (time_str i) = 8%nat.
Proof.
  unfold clock_ok, time_str.
  destruct (clock i) as [x | [[hour minute] second]]; [reflexivity |].
  intros (Hh & Hm & Hs).
  destruct (FormatProps.fmt_02d_two hour Hh) as (a & b & ->).
  destruct (FormatProps.fmt_02d_two minute Hm) as (c & d & ->).
  destruct (FormatProps.fmt_02d_two second Hs) as (e & f & ->).
  reflexivity.
Qed.

Section Clock.

Variable display : Host.display.
Variables bg_color fg_color clock_color : Z.

Local Abbreviation redraw :=
  (LiveClock.redraw display bg_color fg_color clock_color).
Local Abbreviation iteration :=
  (LiveClock.iteration display bg_color fg_color clock_color).
Local Abbreviation run :=
  (LiveClock.run display bg_color fg_color clock_color).
Local Abbreviation main :=
  (LiveClock.main display bg_color fg_color clock_color).

Lemma calls_no_presentation (t : list event) :
  Forall (fun ev => Observe.is_paint ev = true) t ->
  filter is_presentation (calls t) = [] /\
  filter is_big_text (calls t) = [].
Proof.
  induction 1 as [| ev t Hev _ [IH1 IH2]]; [split; reflexivity |].
  unfold calls in *. cbn [map filter].
  destruct ev; try discriminate; cbn; auto.
Qed.

(** A redraw presents once and writes the large text once. *)
Lemma redraw_counts (sb : StatusBar.t) (s : string) (e : StatusBar.draw_env) :
  List.length (filter is_presentation (fst (redraw sb s e))) = 1%nat /\
  List.length (filter is_big_text (fst (redraw sb s e))) = 1%nat.
Proof.
  unfold LiveClock.redraw. cbn [fst].
  assert (Hp : Forall (fun ev => Observe.is_paint ev = true)
                 (trace (StatusBar.draw sb display e))).
  { eapply Forall_impl; [| apply LoopProps.draw_paint_ops].
    intros ev [H _]. exact H. }
  destruct (calls_no_presentation _ Hp) as [E1 E2].
  cbn [filter is_presentation is_big_text].
  rewrite !filter_app, E1, E2. split; reflexivity.
Qed.


(** X24: with the clock fields between 0 and 99, or a clock that
    raises, the clock text has eight characters, so a redraw writes it
    at column [(width - 128) // 2], the column of the exit label too,
    which centres its 128 pixels up to the odd pixel; the redraw clears
    only below the status bar and ends with the one presentation. *)
Theorem redraw_centred (sb : StatusBar.t) (i : tick) :
  clock_ok i ->
  redraw sb (time_str i) (bar_env i) =
    ((Call (Fill_rect 0 (StatusBar.height sb) (width display)
              (height display - StatusBar.height sb) bg_color) ::
      calls (trace (StatusBar.draw sb display (bar_env i))) ++
      [Text_vga2_16x32 (time_str i) ((width display - 128) / 2)
         (StatusBar.height sb +
          (height display - StatusBar.height sb - 32) / 2) clock_color;
       Call (Text "Press G0 to exit" ((width display - 128) / 2)
               (height display - 20) fg_color (Some vga1_8x16));
       Call Show])%list,
     value (StatusBar.draw sb display (bar_env i))) /\
  0 <= (width display - ((width display - 128) / 2 + 128))
       - (width display - 128) / 2 <= 1.
Proof.
  intros Hok. split.
  - unfold LiveClock.redraw. rewrite (time_str_eight i Hok). reflexivity.
  - pose proof (Z.div_mod (width display - 128) 2 ltac:(lia)) as Hd.
    pose proof (Z.mod_pos_bound (width display - 128) 2 ltac:(lia)) as Hm.
    lia.
Qed.

Lemma clock_text_fields (i : tick) (hour minute second : Z) :
  clock i = inr (hour, minute, second) ->
  time_str i = fmt_02d hour ++ ":" ++ fmt_02d minute ++ ":" ++ fmt_02d second.
Proof. unfold time_str. intros ->. reflexivity. Qed.

(** The clock text determines the three fields. *)
Lemma time_str_inj (i j : tick) (h m s h' m' s' : Z) :
  clock i = inr (h, m, s) -> clock j = inr (h', m', s') ->
  0 <= h < 100 -> 0 <= m < 100 -> 0 <= s < 100 ->
  0 <= h' < 100 -> 0 <= m' < 100 -> 0 <= s' < 100 ->
  time_str i = time_str j -> (h, m, s) = (h', m', s').
Proof.
  intros Hi Hj Hh Hm Hs Hh' Hm' Hs'.
  rewrite (clock_text_fields i _ _ _ Hi), (clock_text_fields j _ _ _ Hj).
  destruct (FormatProps.fmt_02d_two h Hh) as (a & b & Ea).
  destruct (FormatProps.fmt_02d_two h' Hh') as (a' & b' & Ea').
  destruct (FormatProps.fmt_02d_two m Hm) as (c & d & Ec).
  destruct (FormatProps.fmt_02d_two m' Hm') as (c' & d' & Ec').
  rewrite Ea, Ea', Ec, Ec'. cbn [append]. intros E.
  injection E as -> -> -> -> Es.
  assert (h = h') by (apply FormatProps.fmt_02d_inj; congruence).
  assert (m = m') by (apply FormatProps.fmt_02d_inj; congruence).
  assert (s = s') by (apply FormatProps.fmt_02d_inj; assumption).
  congruence.
Qed.

(** X25: with the clock fields between 0 and 99, a turn without the exit
    key repaints and presents the screen once when the hour, the minute
    or the second differs from that of the turn painted last, and only
    polls the keys and sleeps when all three are the same. *)
Theorem iteration_second_change (sb : StatusBar.t) (i j : tick)
    (h m s h' m' s' : Z) :
  clock i = inr (h, m, s) -> clock j = inr (h', m', s') ->
  0 <= h < 100 -> 0 <= m < 100 -> 0 <= s < 100 ->
  0 <= h' < 100 -> 0 <= m' < 100 -> 0 <= s' < 100 ->
  mem_string "G0" (keys j) = false ->
  ((h, m, s) = (h', m', s') ->
   iteration sb (time_str i) j =
     ([Call Get_new_keys; Call (Sleep_ms 100)], Running sb (time_str i))) /\
  ((h, m, s) <> (h', m', s') ->
   List.length (filter is_presentation (fst (iteration sb (time_str i) j)))
     = 1%nat /\
   snd (iteration sb (time_str i) j) =
     Running (value (StatusBar.draw sb display (bar_env j))) (time_str j)).
Proof.
  intros Hi Hj Hh Hm Hs Hh' Hm' Hs' Hk. unfold LiveClock.iteration.
  rewrite Hk. split.
  - intros E. injection E as <- <- <-.
    assert (Et : time_str j = time_str i)
      by (rewrite (clock_text_fields i _ _ _ Hi), (clock_text_fields j _ _ _ Hj);
          reflexivity).
    rewrite Et, String.eqb_refl. reflexivity.
  - intros Hne.
    destruct (String.eqb_spec (time_str j) (time_str i)) as [E | E].
    + exfalso. apply Hne. symmetry in E.
      exact (time_str_inj i j _ _ _ _ _ _ Hi Hj Hh Hm Hs Hh' Hm' Hs' E).
    + cbn [negb].
      pose proof (redraw_counts sb (time_str j) (bar_env j)) as [R1 _].
      assert (Hv : snd (redraw sb (time_str j) (bar_env j)) =
                   value (StatusBar.draw sb display (bar_env j)))
        by reflexivity.
      destruct (redraw sb (time_str j) (bar_env j)) as [t sb'].
      cbn [fst snd] in *. subst sb'. split; [| reflexivity].
      cbn [filter is_presentation]. rewrite filter_app, length_app, R1.
      reflexivity.
Qed.

End Clock.

Lemma redraw_centred_witness :
  clock_ok clock_tick /\
  fst (LiveClock.redraw tft0 2113 65535 63488
         (StatusBar.__init__ 16 false no_battery) (time_str clock_tick) env0) =
    [Call (Fill_rect 0 16 240 119 2113);
     Call (Fill_rect 0 0 60 16 0);
     Call (Text "09:05" 2 0 65535 (Some vga1_8x16));
     Text_vga2_16x32 "09:05:07" 56 59 63488;
     Call (Text "Press G0 to exit" 56 115 65535 (Some vga1_8x16));
     Call Show].
Proof.
  assert (Hok : clock_ok clock_tick) by (cbn; lia).
  split; [exact Hok |].
  exact (f_equal fst
           (proj1 (redraw_centred tft0 2113 65535 63488
                     (StatusBar.__init__ 16 false no_battery) clock_tick Hok))).
Defined.

Lemma iteration_second_change_witness :
  mem_string "G0" (keys clock_tick) = false /\
  LiveClock.iteration tft0 2113 65535 63488
    (StatusBar.__init__ 16 false no_battery) (time_str clock_tick) clock_tick =
    ([Call Get_new_keys; Call (Sleep_ms 100)],
     Running (StatusBar.__init__ 16 false no_battery) (time_str clock_tick)).
Proof.
  split; [reflexivity |].
  exact (proj1 (iteration_second_change tft0 2113 65535 63488
                  (StatusBar.__init__ 16 false no_battery)
                  clock_tick clock_tick 9 5 7 9 5 7 eq_refl eq_refl
                  ltac:(lia) ltac:(lia) ltac:(lia) ltac:(lia) ltac:(lia)
                  ltac:(lia) eq_refl) eq_refl).
Defined.


End LiveClockProps.

(** ** Properties of the hello-world app *)

Module HelloWorldProps.
Import Py Host HelloWorld ObserveClock.

Lemma iteration_stay (keys : list string) :
  hello_exit keys = false -> iteration keys = ([Get_new_keys], Waiting).
Proof.
  unfold hello_exit, iteration. intros H.
  destruct keys; [reflexivity |]. rewrite H. reflexivity.
Qed.

Lemma iteration_leave (keys : list string) :
  hello_exit keys = true ->
  iteration keys = ([Get_new_keys; Machine_reset], Halted).
Proof.
  unfold hello_exit, iteration. intros H.
  destruct keys; [discriminate |]. rewrite H. reflexivity.
Qed.

Lemma hello_run_halted (turns : list (list string)) : run Halted turns = ([], Halted).
Proof.
  induction turns as [| keys rest IH]; [reflexivity |].
  cbn [run step]. rewrite IH. reflexivity.
Qed.

Lemma hello_run_waiting (turns : list (list string)) :
  Forall (fun keys => hello_exit keys = false) turns ->
  run Waiting turns = (repeat Get_new_keys (List.length turns), Waiting).
Proof.
  induction 1 as [| keys rest Hk _ IH]; [reflexivity |].
  cbn [run step]. rewrite (iteration_stay keys Hk), IH. reflexivity.
Qed.

(** X26: the hello-world app paints its screen once, before the loop,
    and afterwards only polls the keys.  It is reset at the first turn
    that carries "GO" or "ENT" and issues nothing after that; turns
    with other keys, such as the "G0" the other apps leave on, change
    nothing. *)
Theorem program_exit (before after : list (list string)) (keys : list string) :
  Forall (fun k => hello_exit k = false) before ->
  hello_exit keys = true ->
  program before = ((start ++ repeat Get_new_keys (List.length before))%list,
                    Waiting) /\
  program (before ++ keys :: after) =
    ((start ++ repeat Get_new_keys (List.length before) ++
      [Get_new_keys; Machine_reset])%list, Halted) /\
  hello_exit ["G0"] = false.
Proof.
  intros Hb Hk. unfold program. split; [| split; [| reflexivity]].
  - rewrite (hello_run_waiting before Hb). reflexivity.
  - assert (E : run Waiting (before ++ keys :: after) =
                ((repeat Get_new_keys (List.length before) ++
                  [Get_new_keys; Machine_reset])%list, Halted)).
    { revert Hb. induction 1 as [| k rest Hk' _ IH].
      - rewrite app_nil_l. cbn [run step].
        rewrite (iteration_leave keys Hk), hello_run_halted. reflexivity.
      - rewrite <- app_comm_cons. cbn [run step].
        rewrite (iteration_stay k Hk'), IH. reflexivity. }
    rewrite E. reflexivity.
Qed.

Lemma program_exit_witness :
  Forall (fun k => hello_exit k = false) [[]; ["G0"]] /\
  hello_exit ["a"; "ENT"] = true /\
  program ([[]; ["G0"]] ++ ["a"; "ENT"] :: [["GO"]]) =
    ([Fill 0; Text "Hello World" 80 60 65535 None; Show;
      Get_new_keys; Get_new_keys; Get_new_keys; Machine_reset], Halted).
Proof.
  assert (Hb : Forall (fun k => hello_exit k = false) [[]; ["G0"]])
    by (repeat constructor).
  split; [exact Hb | split; [reflexivity |]].
  exact (proj1 (proj2 (program_exit [[]; ["G0"]] [["GO"]] ["a"; "ENT"]
                         Hb eq_refl))).
Defined.

End HelloWorldProps.
